(** * Verification of the pattern-matching code analyzer

    Shallow embedding of [code_analyzer.py] (class [CodeAnalyzer]) and
    [code_analysis_patterns.py] (classes [SecurityPatternChecker],
    [LogicPatternChecker], function [analyze_code]).

    Conventions of the embedding.
    - A Python [str] is a [string]; a character is a code point below 256.
    - A Python [float] is a binary64 number, the kernel's [float].
    - A Python [dict] that is iterated is an association list in insertion
      order (Python keeps that order).
    - A regular expression is the syntax tree of the pattern the source
      writes as a raw string; [re.search] and [re.finditer] are a
      backtracking matcher with Python's priorities (leftmost start, first
      alternative first, greedy or lazy repetition). *)

From Stdlib Require Import String Ascii List Bool Arith Lia.
From Stdlib Require Import Floats Permutation Sorted.
From Stdlib Require Import DecimalString.
Import ListNotations.
Local Open Scope string_scope.
Local Open Scope list_scope.
Local Open Scope nat_scope.

Set Warnings "-inexact-float,-register-all".

(* ================================================================== *)
(** * Characters and strings as Python sees them *)

Module PyStr.

(** The double quote, the single quote, the back quote and the newline. *)
Definition dq : ascii := "034"%char.
Definition sq : ascii := "'"%char.
Definition bq : ascii := "`"%char.
Definition nl : ascii := "010"%char.

Definition code (c : ascii) : nat := nat_of_ascii c.

Definition between (lo hi : nat) (c : ascii) : bool :=
  (lo <=? code c) && (code c <=? hi).

(** [str.isspace] on code points below 256: tab to carriage return, the
    four separators 28 to 31, the space, NEL and the no-break space. *)
Definition is_space (c : ascii) : bool :=
  between 9 13 c || between 28 32 c || (code c =? 133) || (code c =? 160).

(** The word characters of [\w]: alphanumeric code points and underscore. *)
Definition is_word (c : ascii) : bool :=
  between 48 57 c || between 65 90 c || between 97 122 c || (code c =? 95)
  || (code c =? 170) || (code c =? 178) || (code c =? 179) || (code c =? 181)
  || (code c =? 185) || (code c =? 186) || between 188 190 c
  || between 192 214 c || between 216 246 c || between 248 255 c.

(** [str.lower] on one character. *)
Definition lower_char (c : ascii) : ascii :=
  if between 65 90 c || between 192 214 c || between 216 222 c
  then ascii_of_nat (code c + 32) else c.

Fixpoint lower (s : string) : string :=
  match s with
  | EmptyString => EmptyString
  | String c s' => String (lower_char c) (lower s')
  end.

(** [sub in s] *)
Fixpoint contains (sub s : string) : bool :=
  prefix sub s ||
  match s with
  | EmptyString => false
  | String _ s' => contains sub s'
  end.

Arguments contains : simpl never.

(** [s[:n]] for [n] within the string *)
Fixpoint take (n : nat) (s : string) : string :=
  match n, s with
  | S n', String c s' => String c (take n' s')
  | _, _ => EmptyString
  end.

Fixpoint drop (n : nat) (s : string) : string :=
  match n, s with
  | S n', String _ s' => drop n' s'
  | _, _ => s
  end.

(** [s.count(c)] for a single character *)
Fixpoint count_char (c : ascii) (s : string) : nat :=
  match s with
  | EmptyString => 0
  | String d s' => (if Ascii.eqb d c then 1 else 0) + count_char c s'
  end.

(** [s.count(c, 0, stop)] *)
Definition count_upto (c : ascii) (stop : nat) (s : string) : nat :=
  count_char c (take stop s).

(** [str(n)] for a non-negative integer *)
Definition str_of_nat (n : nat) : string :=
  NilZero.string_of_uint (Nat.to_uint n).

End PyStr.

(* ================================================================== *)
(** * Regular expressions *)

Module Re.
Import PyStr.

(** One item of a bracketed character set. *)
Inductive cset : Type :=
| CChar (c : ascii)            (* a literal character *)
| CRange (lo hi : ascii)       (* lo-hi *)
| CSpace                       (* \s *)
| CWord.                       (* \w *)

Definition in_cset (c : ascii) (i : cset) : bool :=
  match i with
  | CChar d => Ascii.eqb c d
  | CRange lo hi => between (code lo) (code hi) c
  | CSpace => is_space c
  | CWord => is_word c
  end.

(** The constructs the patterns of the two modules use. *)
Inductive regex : Type :=
| Eps                                   (* the empty pattern *)
| Chr (c : ascii)                       (* one literal character *)
| Dot                                   (* . : anything but a newline *)
| Cls (items : list cset)               (* [...] *)
| NCls (items : list cset)              (* [^...] *)
| Seq (r1 r2 : regex)                   (* r1 r2 *)
| Alt (r1 r2 : regex)                   (* r1|r2 *)
| Star (greedy : bool) (r : regex)      (* r* and r*? *)
| NegLook (r : regex).                  (* (?!r) *)

Definition accepts (r : regex) (c : ascii) : option bool :=
  match r with
  | Chr d => Some (Ascii.eqb c d)
  | Dot => Some (negb (Ascii.eqb c nl))
  | Cls items => Some (existsb (in_cset c) items)
  | NCls items => Some (negb (existsb (in_cset c) items))
  | _ => None
  end.

(** First success wins; the second attempt runs only when the first fails. *)
Notation "x <|> y" :=
  (match x with Some v => Some v | None => y end)
  (at level 60, right associativity, only parsing).

(** The repetition of a pattern whose matcher is [step]: at each round a
    greedy star tries one more iteration before the continuation, a lazy
    star the continuation first.  An iteration that consumes nothing is not
    taken; [fuel] is the length of the text, which bounds the rounds. *)
Fixpoint star_loop (step : string -> (string -> option string) -> option string)
  (greedy : bool) (k : string -> option string) (fuel : nat) (s : string)
  : option string :=
  match fuel with
  | 0 => k s
  | S fuel' =>
      if greedy then
        step s (fun s1 => if String.length s1 <? String.length s
                          then star_loop step greedy k fuel' s1 else None)
        <|> k s
      else
        k s
        <|> step s (fun s1 => if String.length s1 <? String.length s
                              then star_loop step greedy k fuel' s1 else None)
  end.

(** [rmatch r s k]: match [r] at the head of [s], then hand the rest to the
    continuation [k]; the first success in priority order wins. *)
Fixpoint rmatch (r : regex) (s : string) (k : string -> option string)
  : option string :=
  match r with
  | Eps => k s
  | Chr _ | Dot | Cls _ | NCls _ =>
      match s with
      | String c s' =>
          match accepts r c with Some true => k s' | _ => None end
      | EmptyString => None
      end
  | Seq r1 r2 => rmatch r1 s (fun s1 => rmatch r2 s1 k)
  | Alt r1 r2 => rmatch r1 s k <|> rmatch r2 s k
  | Star greedy r1 => star_loop (rmatch r1) greedy k (String.length s) s
  | NegLook r1 =>
      match rmatch r1 s Some with
      | Some _ => None
      | None => k s
      end
  end.

(** The pattern can match the empty text (an approximation from above). *)
Fixpoint nullable (r : regex) : bool :=
  match r with
  | Eps => true
  | Chr _ | Dot | Cls _ | NCls _ => false
  | Seq r1 r2 => nullable r1 && nullable r2
  | Alt r1 r2 => nullable r1 || nullable r2
  | Star _ _ => true
  | NegLook _ => true
  end.

(** A match object: [start()], [end()] and [group(0)]. *)
Record rmatch_obj : Type := MkMatch {
  m_start : nat;
  m_end : nat;
  m_group : string
}.

(** Match at the head of [s], which begins at offset [pos] of the content. *)
Definition match_here (r : regex) (pos : nat) (s : string)
  : option rmatch_obj :=
  match rmatch r s Some with
  | Some rest =>
      let n := String.length s - String.length rest in
      Some (MkMatch pos (pos + n) (take n s))
  | None => None
  end.

(** The leftmost match in [s], trying every start from the head on. *)
Fixpoint scan (r : regex) (pos : nat) (s : string) : option rmatch_obj :=
  match match_here r pos s with
  | Some m => Some m
  | None =>
      match s with
      | EmptyString => None
      | String _ s' => scan r (S pos) s'
      end
  end.

(** [re.search(pattern, content)], used only for its truth value. *)
Definition search (r : regex) (content : string) : bool :=
  match scan r 0 content with Some _ => true | None => false end.

(** The successive matches from offset [pos] on.  A non-empty match is
    followed by a scan from its end; after an empty one the scan moves one
    character on.  No pattern of the two modules can match the empty text
    (they are not [nullable]), so their matches are never empty. *)
Fixpoint finditer_from (fuel : nat) (r : regex) (pos : nat) (s : string)
  : list rmatch_obj :=
  match fuel with
  | 0 => []
  | S fuel' =>
      match scan r pos s with
      | None => []
      | Some m =>
          let next := if m_end m =? m_start m then S (m_end m) else m_end m in
          m :: (if String.length s <? next - pos then []
                else finditer_from fuel' r next (drop (next - pos) s))
      end
  end.

(** [re.finditer(pattern, content)], as the list the loop walks over.  Each
    round moves at least one character on, so the fuel is never used up. *)
Definition finditer (r : regex) (content : string) : list rmatch_obj :=
  finditer_from (S (String.length content)) r 0 content.

(** The continuation [k] succeeds with [t] on a text of at most [bound]
    characters. *)
Definition reaches (k : string -> option string) (t : string) (bound : nat)
  : Prop :=
  exists s', String.length s' <= bound /\ k s' = Some t.

(** The match lies in the content: its text is what the content holds
    from [m_start] to [m_end]. *)
Definition located (content : string) (m : rmatch_obj) : Prop :=
  m_start m <= m_end m /\ m_end m <= String.length content
  /\ m_group m = take (m_end m - m_start m) (drop (m_start m) content).

Arguments search : simpl never.
Arguments finditer : simpl never.

(** ** Writing patterns *)

Fixpoint lit (s : string) : regex :=
  match s with
  | EmptyString => Eps
  | String c EmptyString => Chr c
  | String c s' => Seq (Chr c) (lit s')
  end.

Fixpoint cat (rs : list regex) : regex :=
  match rs with
  | [] => Eps
  | [r] => r
  | r :: rs' => Seq r (cat rs')
  end.

Fixpoint alts (rs : list regex) : regex :=
  match rs with
  | [] => NegLook Eps
  | [r] => r
  | r :: rs' => Alt r (alts rs')
  end.

Definition words (l : list string) : regex := alts (map lit l).

Definition star (r : regex) : regex := Star true r.
Definition lazy (r : regex) : regex := Star false r.
Definition plus (r : regex) : regex := Seq r (Star true r).

Definition ws : regex := Cls [CSpace].          (* \s *)
Definition word : regex := Cls [CWord].         (* \w *)
Definition quote : regex := Cls [CChar dq; CChar sq].       (* a quote *)
Definition not_quote : regex := NCls [CChar dq; CChar sq].
Definition any_lazy : regex := lazy Dot.        (* .*? *)
Definition but (c : ascii) : regex := NCls [CChar c].

End Re.

(* ================================================================== *)
(** * Dictionaries, sorting and outcomes *)

Module Py.

(** [d.get(k)] on a dictionary with string keys, kept in insertion order. *)
Fixpoint lookup {V : Type} (k : string) (d : list (string * V)) : option V :=
  match d with
  | [] => None
  | (k', v) :: d' => if String.eqb k k' then Some v else lookup k d'
  end.

(** [d.get(k, default)] *)
Definition get {V : Type} (d : list (string * V)) (k : string) (default : V) : V :=
  match lookup k d with Some v => v | None => default end.

(** [d.keys()] *)
Definition keys {V : Type} (d : list (string * V)) : list string := map fst d.

(** What a call does: it returns a value or raises. *)
Inductive exn : Type := SyntaxError | KeyError (k : string).

Inductive outcome (A : Type) : Type :=
| Returns (a : A)
| Raises (e : exn).
Arguments Returns {A} a.
Arguments Raises {A} e.

Definition bind {A B : Type} (x : outcome A) (f : A -> outcome B) : outcome B :=
  match x with
  | Returns a => f a
  | Raises e => Raises e
  end.

Notation "x <- c ;; k" := (bind c (fun x => k))
  (at level 61, c at next level, right associativity).

(** [d[k]] *)
Definition getitem {V : Type} (d : list (string * V)) (k : string) : outcome V :=
  match lookup k d with Some v => Returns v | None => Raises (KeyError k) end.

(** ** [sorted(xs, key=...)]

    A stable sort that compares keys with [<] only.  [insert x l] puts [x]
    in front of the first element of [l] that is not below it, so [x], which
    comes earlier in the input than all of [l], stays ahead of its equals. *)
Section Sorted.
Context {A : Type} (lt : A -> A -> bool).

Fixpoint insert (x : A) (l : list A) : list A :=
  match l with
  | [] => [x]
  | y :: l' => if lt y x then y :: insert x l' else x :: y :: l'
  end.

Fixpoint sorted (l : list A) : list A :=
  match l with
  | [] => []
  | x :: l' => insert x (sorted l')
  end.

(** [x] may stand before [y]: [y] is not below [x]. *)
Definition may_precede (x y : A) : Prop := lt y x = false.

(** Neither is below the other. *)
Definition tied (x y : A) : bool := negb (lt x y) && negb (lt y x).

End Sorted.

(** [a < b] on tuples [(int, float)]: the first component that differs
    (by [==]) decides. *)
Definition tuple_lt (a b : nat * float) : bool :=
  if fst a =? fst b then
    if PrimFloat.eqb (snd a) (snd b) then false
    else PrimFloat.ltb (snd a) (snd b)
  else fst a <? fst b.

End Py.

(* ================================================================== *)
(** * code_analyzer.py *)

Module Analyzer.
Import PyStr Re Py.

(** A security rule: the values of one entry of [security_patterns]. *)
Module SecRule.
Record t : Type := Make {
  pattern : regex;
  safe_pattern : option regex;
  severity : string;
  description : string;
  fix_ : string
}.
End SecRule.

(** A resource or framework rule: these entries have no [safe_pattern]. *)
Module Rule.
Record t : Type := Make {
  pattern : regex;
  severity : string;
  description : string;
  fix_ : string
}.
End Rule.

(** The dictionary [analyze_file] appends for one match. *)
Module Issue.
Record t : Type := Make {
  type_ : string;
  severity : string;
  description : string;
  line : nat;
  proof : string;
  fix_ : string;
  confidence : float
}.
End Issue.

(** The dictionary [analyze_file] hands to [_calculate_confidence]. *)
Module Probe.
Record t : Type := Make {
  type_ : string;
  severity : string;
  proof : string;
  file : string
}.
End Probe.

(** The analyzer object: the three tables [__init__] builds. *)
Record CodeAnalyzer : Type := MkAnalyzer {
  security_patterns : list (string * SecRule.t);
  resource_patterns : list (string * Rule.t);
  framework_patterns : list (string * list (string * Rule.t))
}.

Definition sql_verbs : regex := words ["SELECT"; "INSERT"; "UPDATE"; "DELETE"].
Definition any_quote : regex := Cls [CChar sq; CChar dq; CChar bq].
Definition braces : regex := cat [Chr "{"; any_lazy; Chr "}"].
Definition dollar_braces : regex := cat [lit "${"; any_lazy; Chr "}"].

Definition cursor_execute_args : regex :=
  cat [lit "cursor.execute("; plus (but ","); Chr ","; star ws; Chr "("].

(** The safe pattern of the hardcoded-secret rule: a call that reads the
    environment or the configuration. *)
Definition environment_call : regex :=
  cat [words ["os.getenv"; "process.env"; "config.get"]; Chr "("].

Definition the_security_patterns : list (string * SecRule.t) :=
  [ ("hardcoded_secrets",
     SecRule.Make
       (cat [words ["password"; "api_key"; "secret"; "token"; "JWT_SECRET"];
             star ws; Chr "="; star ws; quote; plus not_quote; quote])
       (Some environment_call)
       "Critical"
       "Hardcoded credentials in code"
       "Use environment variables or secure vault");
    ("sql_injection",
     SecRule.Make
       (Alt (cat [sql_verbs; any_lazy; any_quote; star ws; braces])
            (cat [sql_verbs; any_lazy; any_quote; any_lazy; dollar_braces]))
       (Some (alts [lit "parameterize"; lit "prepare"; lit "execute";
                    cursor_execute_args]))
       "Critical"
       "SQL injection vulnerability"
       "Use parameterized queries");
    ("command_injection",
     SecRule.Make
       (cat [words ["os.system"; "subprocess.run"; "exec"; "eval"]; Chr "(";
             quote; any_lazy; Alt braces dollar_braces; any_lazy; quote])
       None
       "Critical"
       "Command injection vulnerability"
       "Use subprocess.run with args list");
    ("xss",
     SecRule.Make
       (alts [cat [words ["innerHTML"; "outerHTML"]; star ws; Chr "="];
              lit "dangerouslySetInnerHTML";
              lit "render_template_string"])
       (Some (words ["textContent"; "innerText"]))
       "Critical"
       "Cross-site scripting vulnerability"
       "Use safe content handling methods");
    ("insecure_deserialization",
     SecRule.Make
       (Alt (alts [lit "pickle.loads"; lit "yaml.load"; cat [lit "eval("; quote]])
            (cat [lit "new"; plus ws; lit "Function("]))
       None
       "Critical"
       "Insecure deserialization"
       "Use safe deserialization methods");
    ("path_traversal",
     SecRule.Make
       (cat [words ["open"; "readFile"; "writeFile"]; star ws; Chr "(";
             lazy (but ")");
             Alt (cat [lit "req."; words ["params"; "query"; "body"]]) (lit "user");
             any_lazy; Chr ")"])
       None
       "Critical"
       "Path traversal vulnerability"
       "Validate and sanitize file paths");
    ("weak_crypto",
     SecRule.Make
       (cat [words ["md5"; "sha1"]; Chr "("])
       None
       "Critical"
       "Weak cryptographic algorithm"
       "Use strong cryptographic algorithms") ].

Definition the_resource_patterns : list (string * Rule.t) :=
  [ ("file_leaks",
     Rule.Make
       (cat [lit "open("; plus (but ")"); Chr ")";
             NegLook (cat [any_lazy; lit "with"])])
       "High"
       "File resource leak"
       "Use with statement");
    ("memory_leaks",
     Rule.Make
       (cat [words ["append"; "extend"; "add"]; Chr "("; star (but ")"); Chr ")";
             NegLook (Alt (cat [any_lazy; lit "limit"]) (cat [any_lazy; lit "max"]))])
       "High"
       "Unbounded collection growth"
       "Add size limit") ].

Definition loop_keyword : regex := words ["if"; "for"; "while"].
Definition use_hook : regex := cat [lit "use"; Cls [CRange "A" "Z"]].
Definition catch_head : regex :=
  cat [lit "catch"; star ws; Chr "("; star (but ")"); Chr ")"; star ws;
       Chr "{"; star ws].

Definition react_patterns : list (string * Rule.t) :=
  [ ("hook_rules",
     Rule.Make
       (Alt (cat [loop_keyword; any_lazy; use_hook])
            (cat [loop_keyword; any_lazy; Chr "{"; any_lazy; use_hook]))
       "Critical"
       "Hook rules violation"
       "Move hook to component top level");
    ("effect_deps",
     Rule.Make
       (Alt (cat [lit "useEffect("; plus (but ","); Chr ","; star ws; Chr "[";
                  star ws; Chr "]"; star ws; Chr ")"])
            (cat [lit "useEffect("; plus (but ","); Chr ","; plus (but "]");
                  Chr "]"; any_lazy; NegLook (words ["props"; "state"])]))
       "High"
       "Missing effect dependencies"
       "Add required dependencies");
    ("memory_leak",
     Rule.Make
       (cat [lit "useEffect("; star (but "{"); Chr "{"; star (but "}");
             words ["addEventListener"; "subscribe"]; star (but "}"); Chr "}";
             star (but ","); Chr ")"])
       "High"
       "Effect missing cleanup"
       "Return cleanup function from effect");
    ("unsafe_html",
     Rule.Make
       (cat [lit "dangerouslySetInnerHTML"; star ws; Chr "="; star ws; Chr "{"])
       "Critical"
       "Unsafe HTML injection"
       "Use safe content rendering methods");
    ("state_update",
     Rule.Make
       (cat [lit "set"; plus word; Chr "("; star (but "("); plus word; star ws;
             Cls [CChar "+"; CChar "-"; CChar "*"; CChar "/"]; star ws;
             plus word; Chr ")"])
       "Medium"
       "State update using stale value"
       "Use functional update form") ].

Definition express_patterns : list (string * Rule.t) :=
  [ ("error_handling",
     Rule.Make
       (Alt (cat [catch_head; lit "console."]) (cat [catch_head; lit "res."]))
       "High"
       "Error only logged, not handled"
       "Properly handle or propagate error");
    ("no_validation",
     Rule.Make
       (cat [lit "req."; words ["body"; "params"; "query"]; Chr ".";
             plus (NCls [CSpace]); NegLook (cat [star Dot; lit "validate"])])
       "High"
       "Missing input validation"
       "Add input validation");
    ("sync_code",
     Rule.Make
       (cat [lit "app."; words ["get"; "post"; "put"; "delete"]; Chr "(";
             plus (but ","); Chr ","; star ws; lit "function"; star ws; Chr "(";
             star (but ")"); Chr ")"; star ws; Chr "{"; star (but "}");
             lit "await"])
       "High"
       "Sync function with async code"
       "Add async keyword to function") ].

Definition the_framework_patterns : list (string * list (string * Rule.t)) :=
  [ ("react", react_patterns); ("express", express_patterns) ].

(** [CodeAnalyzer()] *)
Definition init : CodeAnalyzer :=
  MkAnalyzer the_security_patterns the_resource_patterns the_framework_patterns.

(** Every pattern of the three tables. *)
Definition patterns_of (self : CodeAnalyzer) : list regex :=
  map (fun e => SecRule.pattern (snd e)) (security_patterns self)
  ++ map (fun e => Rule.pattern (snd e)) (resource_patterns self)
  ++ flat_map (fun t => map (fun e => Rule.pattern (snd e)) (snd t))
       (framework_patterns self).

(** ** [_detect_framework] *)

(** The local dictionary [frameworks], in the order it is written. *)
Definition frameworks : list (string * regex) :=
  [ ("react",
     Alt (cat [lit "import"; any_lazy; lit "react"])
         (cat [lit "from"; plus ws; quote; lit "react"; quote]));
    ("express",
     Alt (cat [lit "import"; any_lazy; lit "express"])
         (cat [lit "require("; quote; lit "express"; quote]));
    ("django",
     Alt (cat [lit "from"; plus ws; lit "django"])
         (cat [lit "import"; plus ws; lit "django"]));
    ("flask",
     Alt (cat [lit "from"; plus ws; lit "flask"; plus ws; lit "import"])
         (cat [lit "import"; plus ws; lit "flask"])) ].

(** The [for] loop with its early [return]; [None] when it runs out. *)
Fixpoint first_matching (table : list (string * regex)) (content : string)
  : option string :=
  match table with
  | [] => None
  | (framework, pattern) :: rest =>
      if search pattern content then Some framework
      else first_matching rest content
  end.

Definition _detect_framework (content : string) : option string :=
  first_matching frameworks content.

(** ** [_has_safe_pattern] and [_calculate_confidence] *)

Definition safe_patterns : list (string * list regex) :=
  [ ("hardcoded_secrets",
     [lit "os.getenv"; lit "process.env"; lit "config.get"]);
    ("sql_injection",
     [lit "parameterize("; cursor_execute_args]) ].

Definition _has_safe_pattern (issue : Probe.t) : bool :=
  let patterns := get safe_patterns (Probe.type_ issue) [] in
  existsb (fun p => search p (Probe.proof issue)) patterns.

Definition severity_confidence : list (string * float) :=
  [ ("Critical", 0.95%float); ("High", 0.85%float);
    ("Medium", 0.75%float); ("Low", 0.65%float) ].

Definition _calculate_confidence (issue : Probe.t) : float :=
  let confidence := 1.0%float in
  (* base confidence by severity *)
  let confidence :=
    (confidence * get severity_confidence (Probe.severity issue) 0.5)%float in
  (* reduce confidence for test files *)
  let confidence :=
    if contains "test" (lower (Probe.file issue))
    then (confidence * 0.5)%float else confidence in
  (* check for safe patterns *)
  let confidence :=
    if _has_safe_pattern issue then (confidence * 0.3)%float else confidence in
  confidence.

(** ** [analyze_file] *)

(** The dictionary appended for the match [m] of the rule [name]. *)
Definition issue_of (file_path content name severity description fix_ : string)
  (m : rmatch_obj) : Issue.t :=
  Issue.Make
    name
    severity
    description
    (count_upto nl (m_start m) content + 1)
    (m_group m)
    fix_
    (_calculate_confidence (Probe.Make name severity (m_group m) file_path)).

(** [pattern.get('safe_pattern') and re.search(pattern['safe_pattern'],
    content)]: the rule has a safe pattern and the whole content holds it. *)
Definition safe_pattern_found (pattern : SecRule.t) (content : string) : bool :=
  match SecRule.safe_pattern pattern with
  | Some safe => search safe content
  | None => false
  end.

(** The body of the security loop for one rule: a match is skipped
    ([continue]) when the safe pattern is found. *)
Definition scan_security (file_path content : string)
  (entry : string * SecRule.t) : list Issue.t :=
  let (name, pattern) := entry in
  flat_map
    (fun m =>
       if safe_pattern_found pattern content then []
       else [issue_of file_path content name (SecRule.severity pattern)
               (SecRule.description pattern) (SecRule.fix_ pattern) m])
    (finditer (SecRule.pattern pattern) content).

(** The body of the resource and framework loops for one rule. *)
Definition scan_rule (file_path content : string)
  (entry : string * Rule.t) : list Issue.t :=
  let (name, pattern) := entry in
  map
    (issue_of file_path content name (Rule.severity pattern)
       (Rule.description pattern) (Rule.fix_ pattern))
    (finditer (Rule.pattern pattern) content).

(** [if framework and framework in self.framework_patterns: ...] *)
Definition scan_framework (self : CodeAnalyzer) (framework : option string)
  (file_path content : string) : list Issue.t :=
  match framework with
  | Some fw =>
      if String.eqb fw "" then [] else
      match lookup fw (framework_patterns self) with
      | Some rules => flat_map (scan_rule file_path content) rules
      | None => []
      end
  | None => []
  end.

(** The list [issues] when the three loops are over, in discovery order,
    for a given value of the local variable [framework]. *)
Definition collect (self : CodeAnalyzer) (framework : option string)
  (file_path content : string) : list Issue.t :=
  flat_map (scan_security file_path content) (security_patterns self)
  ++ flat_map (scan_rule file_path content) (resource_patterns self)
  ++ scan_framework self framework file_path content.

Definition severity_rank : list (string * nat) :=
  [ ("Critical", 0); ("High", 1); ("Medium", 2); ("Low", 3) ].

(** The sort key of the [lambda]. *)
Definition sort_key (x : Issue.t) : nat * float :=
  (get severity_rank (Issue.severity x) 4, (- Issue.confidence x)%float).

Definition issue_lt (x y : Issue.t) : bool := tuple_lt (sort_key x) (sort_key y).

(** [sorted(issues, key=lambda x: ...)] *)
Definition sort_issues (issues : list Issue.t) : list Issue.t :=
  sorted issue_lt issues.

(** The rest of [analyze_file] once [framework] is known. *)
Definition analyze_with (self : CodeAnalyzer) (framework : option string)
  (file_path content : string) : list Issue.t :=
  sort_issues (collect self framework file_path content).

(** [analyze_file], the text of the file being [content].  The local
    [file_type] is computed by the source and never read, so it is left
    out. *)
Definition analyze_file (self : CodeAnalyzer) (file_path content : string)
  : list Issue.t :=
  let framework := _detect_framework content in
  analyze_with self framework file_path content.

End Analyzer.

(* ================================================================== *)
(** * code_analysis_patterns.py *)

Module Patterns.
Import PyStr Re Py.

(** An issue of this module is a dictionary of strings, written here with
    its keys in the order of the dictionary display. *)
Definition issue : Type := list (string * string).

(** [f'Line {code.count(chr(10), 0, match.start()) + 1}'] *)
Definition location_of (code : string) (m : rmatch_obj) : string :=
  "Line " ++ str_of_nat (count_upto nl (m_start m) code + 1).

(** The checker object: the three tables [__init__] builds. *)
Record SecurityPatternChecker : Type := MkChecker {
  credential_patterns : list (string * regex);
  injection_patterns : list (string * regex);
  resource_patterns : list (string * regex)
}.

Definition fstring_body : regex := cat [any_lazy; Chr "{"; any_lazy; Chr "}"; any_lazy].

Definition hardcoded_secrets_pattern : regex :=
  cat [words ["password"; "api_key"; "secret"; "token"; "key"];
       star ws; Chr "="; star ws; quote; plus not_quote; quote].

Definition safe_patterns_pattern : regex :=
  cat [words ["os.getenv"; "process.env"; "config.get"; "secrets.get"];
       Chr "("; quote; plus not_quote; quote; Chr ")"].

Definition the_credential_patterns : list (string * regex) :=
  [ ("hardcoded_secrets", hardcoded_secrets_pattern);
    ("safe_patterns", safe_patterns_pattern) ].

Definition the_injection_patterns : list (string * regex) :=
  [ ("sql_injection",
     cat [Chr "f"; quote; fstring_body;
          words ["SELECT"; "INSERT"; "UPDATE"; "DELETE"]; any_lazy; quote]);
    ("command_injection",
     cat [words ["os.system"; "subprocess.run"; "subprocess.Popen"]; Chr "(";
          quote; fstring_body; quote; any_lazy; Chr ")"]);
    ("shell_injection",
     cat [lit "shell"; star ws; Chr "="; star ws; lit "True"]) ].

Definition the_resource_patterns : list (string * regex) :=
  [ ("file_leaks",
     cat [lit "open("; plus (but ")"); Chr ")";
          NegLook (cat [any_lazy; lit "with"])]);
    ("infinite_loops",
     cat [lit "while"; plus ws; lit "True:";
          NegLook (cat [any_lazy; lit "break"])]);
    ("memory_leaks",
     cat [words ["append"; "extend"; "add"]; Chr "("; star (but ")"); Chr ")";
          NegLook (Alt (cat [any_lazy; lit "limit"]) (cat [any_lazy; lit "max"]))]) ].

(** [SecurityPatternChecker()] *)
Definition init : SecurityPatternChecker :=
  MkChecker the_credential_patterns the_injection_patterns the_resource_patterns.

(** Every pattern of the three tables. *)
Definition patterns_of (self : SecurityPatternChecker) : list regex :=
  map snd (credential_patterns self) ++ map snd (injection_patterns self)
  ++ map snd (resource_patterns self).

Definition credential_issue (code : string) (m : rmatch_obj) : issue :=
  [ ("severity", "Critical");
    ("category", "Security");
    ("type", "Hardcoded secrets");
    ("location", location_of code m);
    ("description", "Hardcoded credential found in code");
    ("proof", m_group m);
    ("fix", "Use environment variables or secure secret storage") ].

Definition check_credentials (self : SecurityPatternChecker) (code : string)
  : outcome (list issue) :=
  pattern <- getitem (credential_patterns self) "hardcoded_secrets" ;;
  Returns (map (credential_issue code) (finditer pattern code)).

Definition sql_issue (code : string) (m : rmatch_obj) : issue :=
  [ ("severity", "Critical");
    ("category", "Security");
    ("type", "SQL Injection");
    ("location", location_of code m);
    ("description", "Potential SQL injection through string formatting");
    ("proof", m_group m);
    ("fix", "Use parameterized queries") ].

Definition command_issue (code : string) (m : rmatch_obj) : issue :=
  [ ("severity", "Critical");
    ("category", "Security");
    ("type", "Command Injection");
    ("location", location_of code m);
    ("description", "Potential command injection through string formatting");
    ("proof", m_group m);
    ("fix", "Use subprocess.run with a list of arguments") ].

Definition check_injections (self : SecurityPatternChecker) (code : string)
  : outcome (list issue) :=
  sql <- getitem (injection_patterns self) "sql_injection" ;;
  let issues := map (sql_issue code) (finditer sql code) in
  cmd <- getitem (injection_patterns self) "command_injection" ;;
  Returns (issues ++ map (command_issue code) (finditer cmd code)).

Definition leak_issue (code : string) (m : rmatch_obj) : issue :=
  [ ("severity", "High");
    ("category", "Code Quality");
    ("type", "Resource leak");
    ("location", location_of code m);
    ("description", "File opened without using context manager");
    ("proof", m_group m);
    ("fix",
     ("Use " ++ String dq "with open(...) as f:" ++ String dq " pattern")%string) ].

Definition loop_issue (code : string) (m : rmatch_obj) : issue :=
  [ ("severity", "High");
    ("category", "Logic");
    ("type", "Infinite loop");
    ("location", location_of code m);
    ("description", "Potential infinite loop without break condition");
    ("proof", m_group m);
    ("fix", "Add proper exit condition") ].

Definition check_resources (self : SecurityPatternChecker) (code : string)
  : outcome (list issue) :=
  leaks <- getitem (resource_patterns self) "file_leaks" ;;
  let issues := map (leak_issue code) (finditer leaks code) in
  loops <- getitem (resource_patterns self) "infinite_loops" ;;
  Returns (issues ++ map (loop_issue code) (finditer loops code)).

(** ** The structural checker *)

(** The syntax trees of [ast], as far as the two checks look at them: an
    attribute access, an exception handler, and any other node with its
    child nodes in field order. *)
Inductive ast : Type :=
| Attribute (lineno : nat) (value : ast) (attr : string)
| ExceptHandler (lineno : nat) (type : option ast) (body : list ast)
| Node (class : string) (children : list ast).

(** [ast.iter_child_nodes] *)
Definition child_nodes (n : ast) : list ast :=
  match n with
  | Attribute _ value _ => [value; Node "Load" []]
  | ExceptHandler _ type body =>
      match type with Some e => e :: body | None => body end
  | Node _ children => children
  end.

Fixpoint size (n : ast) : nat :=
  match n with
  | Attribute _ value _ => 2 + size value
  | ExceptHandler _ type body =>
      1 + match type with Some e => size e | None => 0 end
        + fold_right (fun c acc => size c + acc) 0 body
  | Node _ children => 1 + fold_right (fun c acc => size c + acc) 0 children
  end.

(** The number of nodes of the trees of a queue. *)
Definition total (q : list ast) : nat :=
  fold_right (fun c acc => size c + acc) 0 q.

(** [ast.walk]: a queue, served from the left, fed with the children. *)
Fixpoint walk_queue (fuel : nat) (todo : list ast) : list ast :=
  match fuel, todo with
  | S fuel', node :: rest => node :: walk_queue fuel' (rest ++ child_nodes node)
  | _, _ => []
  end.

Definition walk (tree : ast) : list ast := walk_queue (size tree) [tree].

Definition null_pointer_issue (lineno : nat) : issue :=
  [ ("severity", "High");
    ("category", "Logic");
    ("type", "Null pointer");
    ("location", ("Line " ++ str_of_nat lineno)%string);
    ("description", "Potential null pointer dereference");
    ("fix", "Add null check before accessing attribute") ].

Definition bare_except_issue (lineno : nat) : issue :=
  [ ("severity", "Medium");
    ("category", "Code Quality");
    ("type", "Broad exception handling");
    ("location", ("Line " ++ str_of_nat lineno)%string);
    ("description", "Using bare except clause");
    ("fix", "Catch specific exceptions") ].

Definition null_pointers_of (tree : ast) : list issue :=
  flat_map
    (fun node =>
       match node with
       | Attribute lineno _ _ => [null_pointer_issue lineno]
       | _ => []
       end)
    (walk tree).

Definition bare_excepts_of (tree : ast) : list issue :=
  flat_map
    (fun node =>
       match node with
       | ExceptHandler lineno None _ => [bare_except_issue lineno]
       | _ => []
       end)
    (walk tree).

(** The dictionary has no [confidence] key. *)
Definition unscored (i : issue) : Prop := lookup "confidence" i = None.

(** The two lists that the regular expressions alone produce: the security
    issues and the resource issues. *)
Definition regex_issues (security_checker : SecurityPatternChecker)
  (code : string) : outcome (list issue * list issue) :=
  credentials <- check_credentials security_checker code ;;
  injections <- check_injections security_checker code ;;
  resources <- check_resources security_checker code ;;
  Returns (credentials ++ injections, resources).

(** A stand-in for [ast.parse] in examples.  It knows one rule of Python's
    grammar, that the first statement of a module starts in the first
    column, and raises on a text that breaks it; any other text it takes
    for an empty module.  [col] counts the blanks read on the current line,
    [in_comment] is set from a hash sign to the end of its line. *)
Fixpoint first_statement_indented (s : string) (col : nat) (in_comment : bool)
  : bool :=
  match s with
  | EmptyString => false
  | String c s' =>
      if Ascii.eqb c nl then first_statement_indented s' 0 false
      else if in_comment then first_statement_indented s' col true
      else if Ascii.eqb c " " || Ascii.eqb c "009"
           then first_statement_indented s' (S col) false
      else if Ascii.eqb c "#" then first_statement_indented s' col true
      else 0 <? col
  end.

Definition reject_indented (code : string) : outcome ast :=
  if first_statement_indented code 0 false
  then Raises SyntaxError else Returns (Node "Module" []).

Section Logic.

(** [ast.parse] belongs to Python's library: on a source text it returns a
    tree or raises. *)
Variable ast_parse : string -> outcome ast.

Definition check_null_pointers (code : string) : outcome (list issue) :=
  tree <- ast_parse code ;;
  Returns (null_pointers_of tree).

Definition check_error_handling (code : string) : outcome (list issue) :=
  tree <- ast_parse code ;;
  Returns (bare_excepts_of tree).

(** [analyze_code]: the values of the dictionary display are evaluated in
    the order they are written; an exception leaves the function. *)
Definition analyze_code (code : string)
  : outcome (list (string * list issue)) :=
  let security_checker := init in
  credentials <- check_credentials security_checker code ;;
  injections <- check_injections security_checker code ;;
  resources <- check_resources security_checker code ;;
  null_pointers <- check_null_pointers code ;;
  error_handling <- check_error_handling code ;;
  Returns
    [ ("security_issues", credentials ++ injections);
      ("resource_issues", resources);
      ("logic_issues", null_pointers ++ error_handling) ].

End Logic.

End Patterns.

(* ================================================================== *)
(** * The confidence score *)

Module Confidence.
Import PyStr Re Py Analyzer.

(** ** The score as the specification words it *)

Definition spec_base (severity : string) : float :=
  if String.eqb severity "Critical" then 0.95%float
  else if String.eqb severity "High" then 0.85%float
  else if String.eqb severity "Medium" then 0.75%float
  else if String.eqb severity "Low" then 0.65%float
  else 0.50%float.

Definition spec_test_factor (file : string) : float :=
  if contains "test" (lower file) then 0.5%float else 1%float.

(** The proof text contains one of the narrow safe sub-patterns of its
    type, for the two types that have some. *)
Definition spec_proof_is_safe (type_ proof : string) : bool :=
  (String.eqb type_ "hardcoded_secrets"
   && (search (lit "os.getenv") proof
       || search (lit "process.env") proof
       || search (lit "config.get") proof))
  || (String.eqb type_ "sql_injection"
      && (search (lit "parameterize(") proof
          || search cursor_execute_args proof)).

Definition spec_safe_factor (type_ proof : string) : float :=
  if spec_proof_is_safe type_ proof then 0.3%float else 1%float.

Definition spec_confidence (issue : Probe.t) : float :=
  (spec_base (Probe.severity issue)
   * spec_test_factor (Probe.file issue)
   * spec_safe_factor (Probe.type_ issue) (Probe.proof issue))%float.

(** ** The values a score can take *)

Definition bases : list float :=
  [0.95%float; 0.85%float; 0.75%float; 0.65%float; 0.5%float].

Definition conf_values : list float :=
  flat_map
    (fun b => [b; (b * 0.5)%float; (b * 0.3)%float; (b * 0.5 * 0.3)%float])
    bases.

(** [0 <= c <= hi] on floats *)
Definition within (hi c : float) : bool :=
  PrimFloat.leb 0%float c && PrimFloat.leb c hi.

(** Membership in a list of floats, by [==]. *)
Definition mem_float (c : float) (l : list float) : bool :=
  existsb (PrimFloat.eqb c) l.

End Confidence.

(* ================================================================== *)
(** * The order of the report *)

Module Order.
Import PyStr Re Py Analyzer Confidence.

(** The rank the sort key gives a finding. *)
Definition rank (x : Issue.t) : nat := get severity_rank (Issue.severity x) 4.

(** [x] is ranked no later than [y]: a smaller severity rank, or the same
    rank and a confidence at least as large. *)
Definition ranked_before (x y : Issue.t) : Prop :=
  rank x < rank y
  \/ (rank x = rank y
      /\ PrimFloat.leb (Issue.confidence y) (Issue.confidence x) = true).

(** Same severity rank and same confidence. *)
Definition same_key (x y : Issue.t) : bool :=
  (rank x =? rank y) && PrimFloat.eqb (Issue.confidence x) (Issue.confidence y).

(** The confidence is one a score can take. *)
Definition scored (x : Issue.t) : Prop := In (Issue.confidence x) conf_values.

(** The float component of [tuple_lt] on the keys of two confidences. *)
Definition neg_lt (a b : float) : bool :=
  if PrimFloat.eqb (- a) (- b) then false else PrimFloat.ltb (- a) (- b).

Definition all2 (f : float -> float -> bool) : bool :=
  forallb (fun a => forallb (f a) conf_values) conf_values.

Definition all3 (f : float -> float -> float -> bool) : bool :=
  forallb (fun a => all2 (f a)) conf_values.

(** A finding as the sorting example gives it: a severity and a confidence. *)
Definition sample (severity : string) (confidence : float) : Issue.t :=
  Issue.Make "sample" severity "" 1 "" "" confidence.

End Order.

(* ================================================================== *)
(** * Where the findings of [analyze_file] come from *)

Module Provenance.
Import PyStr Re Py Analyzer.

(** The rules the three loops of [analyze_file] run on a content, each with
    the name, pattern, severity, description and fix it gives its findings.
    A security rule is listed only when its matches are kept. *)
Inductive applies (self : CodeAnalyzer) (framework : option string)
  (content : string) : string -> regex -> string -> string -> string -> Prop :=
| security_rule (name : string) (rule : SecRule.t) :
    In (name, rule) (security_patterns self) ->
    (forall safe, SecRule.safe_pattern rule = Some safe ->
                  search safe content = false) ->
    applies self framework content name (SecRule.pattern rule)
      (SecRule.severity rule) (SecRule.description rule) (SecRule.fix_ rule)
| resource_rule (name : string) (rule : Rule.t) :
    In (name, rule) (resource_patterns self) ->
    applies self framework content name (Rule.pattern rule)
      (Rule.severity rule) (Rule.description rule) (Rule.fix_ rule)
| framework_rule (fw : string) (rules : list (string * Rule.t))
    (name : string) (rule : Rule.t) :
    framework = Some fw -> fw <> "" ->
    lookup fw (framework_patterns self) = Some rules ->
    In (name, rule) rules ->
    applies self framework content name (Rule.pattern rule)
      (Rule.severity rule) (Rule.description rule) (Rule.fix_ rule).

(** The findings of one rule name in a report. *)
Definition findings_of (name : string) (report : list Issue.t) : list Issue.t :=
  filter (fun f => String.eqb (Issue.type_ f) name) report.

End Provenance.

(* ================================================================== *)
(** * Sample inputs *)

Module Samples.
Import PyStr Re Py Analyzer.
Local Open Scope string_scope.

(** A text between double quotes. *)
Definition quoted (s : string) : string := String dq (s ++ String dq "").

(** Lines, each ended by a newline. *)
Fixpoint text (lines : list string) : string :=
  match lines with
  | [] => ""
  | l :: rest => l ++ String nl (text rest)
  end.

(** The content of the line-number example: the secret is on line 3. *)
Definition secret_on_line_3 : string :=
  text ["a"; "b"; "password = " ++ quoted "x"].

(** A hardcoded secret followed, later in the file, by a safe call. *)
Definition secret_then_getenv : string :=
  text ["password = " ++ quoted "x";
        "region = os.getenv(" ++ quoted "X" ++ ")"].

(** A file that imports react and requires express. *)
Definition react_and_express : string :=
  text ["import React from 'react'";
        "const app = require('express')()"].

(** A Django view with a weak hash and an unclosed file. *)
Definition django_view : string :=
  text ["from django.http import HttpResponse";
        "digest = md5(data)";
        "f = open(name)"].

(** The [test_code] of the example run at the end of
    [code_analysis_patterns.py]: every line is indented. *)
Definition test_code : string :=
  String nl
    (text ["    password = " ++ quoted "secret123" ++ "  # Should flag this";
           "    api_key = os.getenv(" ++ quoted "API_KEY"
             ++ ")  # Should NOT flag this";
           "    query = f" ++ quoted "SELECT * FROM users WHERE id = {user_id}"
             ++ "  # Should flag this";
           "    os.system(f" ++ quoted "rm {filename}" ++ ")  # Should flag this";
           "    f = open(" ++ quoted "test.txt" ++ ")  # Should flag this";
           "    while True:  # Should flag this";
           "        process_data()"]
     ++ "    ").

(** What [analyze_file] reports on [secret_on_line_3]. *)
Definition secret_finding : Issue.t :=
  Issue.Make "hardcoded_secrets" "Critical" "Hardcoded credentials in code" 3
    ("password = " ++ quoted "x")
    "Use environment variables or secure vault" 0.95%float.

(** A Flask test module: two findings of the same severity and score. *)
Definition flask_test_module : string :=
  text ["from flask import Flask";
        "f = open(name)";
        "h = md5(x)";
        "items.append(x)"].

Definition leak_finding : Issue.t :=
  Issue.Make "file_leaks" "High" "File resource leak" 2 "open(name)"
    "Use with statement" (0.85 * 0.5)%float.

(** The findings of the sorting example, before and after the sort. *)
Definition sorting_example_in : list Issue.t :=
  [ Order.sample "Medium" 0.5%float; Order.sample "Critical" 0.9%float;
    Order.sample "High" 0.5%float; Order.sample "Critical" 0.95%float ].

Definition sorting_example_out : list Issue.t :=
  [ Order.sample "Critical" 0.95%float; Order.sample "Critical" 0.9%float;
    Order.sample "High" 0.5%float; Order.sample "Medium" 0.5%float ].

(** A hardcoded secret next to a call the [safe_patterns] entry matches. *)
Definition secret_and_safe_call : string :=
  text ["password = " ++ quoted "secret123";
        "api_key = os.getenv(" ++ quoted "API_KEY" ++ ")"].

(** The same secret on line 1 and on line 3. *)
Definition secret_text : string := "password = " ++ quoted "x".

Definition secret_twice : string := text [secret_text; "b"; secret_text].

(** The tree of the one-line module [a.b]. *)
Definition attribute_access : Patterns.ast :=
  Patterns.Node "Module"
    [Patterns.Node "Expr"
       [Patterns.Attribute 1 (Patterns.Node "Name" []) "b"]].

End Samples.

(* ================================================================== *)
(** * code_analysis_patterns.py: [generate_report] *)

Module Report.
Import PyStr Re Py Patterns.
Local Open Scope string_scope.

(** [s.replace(a, b)] for two single characters *)
Fixpoint replace_char (a b : ascii) (s : string) : string :=
  match s with
  | EmptyString => EmptyString
  | String c s' => String (if Ascii.eqb c a then b else c) (replace_char a b s')
  end.

(** [sep.join(parts)] *)
Fixpoint join (sep : string) (parts : list string) : string :=
  match parts with
  | [] => ""
  | [part] => part
  | part :: rest => part ++ sep ++ join sep rest
  end.

(** [enumerate(xs, start)] *)
Fixpoint enumerate {A : Type} (start : nat) (xs : list A) : list (nat * A) :=
  match xs with
  | [] => []
  | x :: xs' => (start, x) :: enumerate (S start) xs'
  end.

(** [str.upper] on the letters a to z; the keys and categories this module
    builds are made of those letters and the underscore. *)
Definition upper_char (c : ascii) : ascii :=
  if between 97 122 c then ascii_of_nat (code c - 32) else c.

Fixpoint upper_ascii (s : string) : string :=
  match s with
  | EmptyString => EmptyString
  | String c s' => String (upper_char c) (upper_ascii s')
  end.

Section Rendering.

(** [str.upper] belongs to Python's library. *)
Variable upper : string -> string.

(** [f"\n=== {category.upper().replace('_', ' ')} ==="] *)
Definition heading (category : string) : string :=
  String nl ("=== " ++ replace_char "_" " " (upper category) ++ " ===").

(** The entries one issue appends: its number, then one per key. *)
Definition issue_entries (numbered : nat * issue) : list string :=
  let (i, issue) := numbered in
  String nl ("ISSUE " ++ str_of_nat i ++ ":")
  :: map (fun kv => "- " ++ upper (fst kv) ++ ": " ++ snd kv) issue.

(** The entries one category appends: nothing when it has no issue. *)
Definition category_entries (group : string * list issue) : list string :=
  let (category, issues) := group in
  match issues with
  | [] => []
  | _ :: _ => heading category :: flat_map issue_entries (enumerate 1 issues)
  end.

(** The list [report] when the loops are over. *)
Definition report_entries (results : list (string * list issue)) : list string :=
  flat_map category_entries results.

Definition generate_report (results : list (string * list issue)) : string :=
  join (String nl "") (report_entries results).

End Rendering.

End Report.

(* ================================================================== *)
(** * Counting in trees and tables *)

Module Census.
Import PyStr Re Py Analyzer.

(** The attribute accesses of a tree. *)
Fixpoint attributes (n : Patterns.ast) : nat :=
  match n with
  | Patterns.Attribute _ value _ => 1 + attributes value
  | Patterns.ExceptHandler _ type body =>
      match type with Some e => attributes e | None => 0 end
      + fold_right (fun c acc => attributes c + acc) 0 body
  | Patterns.Node _ children =>
      fold_right (fun c acc => attributes c + acc) 0 children
  end.

(** The exception handlers of a tree that name no exception type. *)
Fixpoint bare_handlers (n : Patterns.ast) : nat :=
  match n with
  | Patterns.Attribute _ value _ => bare_handlers value
  | Patterns.ExceptHandler _ type body =>
      match type with Some e => bare_handlers e | None => 1 end
      + fold_right (fun c acc => bare_handlers c + acc) 0 body
  | Patterns.Node _ children =>
      fold_right (fun c acc => bare_handlers c + acc) 0 children
  end.

(** What the tables say of every rule name: severity, description, fix. *)
Definition registry (self : CodeAnalyzer)
  : list (string * (string * string * string)) :=
  map (fun e => (fst e, (SecRule.severity (snd e), SecRule.description (snd e),
                         SecRule.fix_ (snd e))))
      (security_patterns self)
  ++ map (fun e => (fst e, (Rule.severity (snd e), Rule.description (snd e),
                            Rule.fix_ (snd e))))
       (resource_patterns self ++ flat_map snd (framework_patterns self)).

(** The finding with its confidence halved. *)
Definition halve (x : Issue.t) : Issue.t :=
  Issue.Make (Issue.type_ x) (Issue.severity x) (Issue.description x)
    (Issue.line x) (Issue.proof x) (Issue.fix_ x)
    (Issue.confidence x * 0.5)%float.

(** The scores a path without [test] in it can give. *)
Definition plain_values : list float :=
  flat_map (fun b => [b; (b * 0.3)%float]) Confidence.bases.

(** The path is one of a test file for [_calculate_confidence]. *)
Definition is_test_path (file_path : string) : bool :=
  contains "test" (lower file_path).

(** The sum of a count over the trees of a queue. *)
Definition sum_over (count : Patterns.ast -> nat) (q : list Patterns.ast)
  : nat :=
  fold_right (fun c acc => count c + acc) 0 q.

(** The confidence is one a path without [test] can give. *)
Definition plain_scored (x : Issue.t) : Prop :=
  In (Issue.confidence x) plain_values.

(** The names of all the rules of the three tables differ from one
    another. *)
Definition names_differ (self : CodeAnalyzer) : Prop :=
  NoDup (keys (security_patterns self) ++ keys (resource_patterns self)
         ++ flat_map (fun t => keys (snd t)) (framework_patterns self)).

Fixpoint nodupb (l : list string) : bool :=
  match l with
  | [] => true
  | x :: l' => negb (existsb (String.eqb x) l') && nodupb l'
  end.

(** The issue of [code_analysis_patterns] has one of the given types. *)
Definition type_in (types : list string) (i : Patterns.issue) : Prop :=
  exists t, lookup "type" i = Some t /\ In t types.

(** A checker without the three entries that no method reads:
    [safe_patterns], [shell_injection] and [memory_leaks]. *)
Definition trimmed : Patterns.SecurityPatternChecker :=
  Patterns.MkChecker
    (firstn 1 Patterns.the_credential_patterns)
    (firstn 2 Patterns.the_injection_patterns)
    (firstn 2 Patterns.the_resource_patterns).

(** An empty result of [analyze_code]. *)
Definition no_issues : list (string * list Patterns.issue) :=
  [ ("security_issues", []); ("resource_issues", []); ("logic_issues", []) ].

(** The tree of the one-line module [a.b.c]. *)
Definition nested_attribute_access : Patterns.ast :=
  Patterns.Node "Module"
    [Patterns.Node "Expr"
       [Patterns.Attribute 1
          (Patterns.Attribute 1 (Patterns.Node "Name" []) "b") "c"]].

End Census.

(* ================================================================== *)
(** * Where a finding was found *)

Module Lines.
Import PyStr Re Py Analyzer.

(** What a finding says of where it was found: its type, its line and the
    text it quotes. *)
Definition place (f : Issue.t) : string * nat * string :=
  (Issue.type_ f, Issue.line f, Issue.proof f).

(** The line of a character offset: one more than the number of newlines
    the content holds before it. *)
Definition line_at (content : string) (offset : nat) : nat :=
  count_char nl (take offset content) + 1.

(** For a named pattern, its matches in the content from left to right, each
    with the line of the offset it begins at and the text it matched. *)
Definition places (content : string) (entry : string * regex)
  : list (string * nat * string) :=
  map (fun m => (fst entry, line_at content (m_start m), m_group m))
      (finditer (snd entry) content).

Definition named {R : Type} (pattern : R -> regex) (entry : string * R)
  : string * regex :=
  (fst entry, pattern (snd entry)).

(** The named patterns whose matches the three loops append, in the order
    the loops meet them: the security rules whose safe pattern is not
    found, the resource rules, the rules of the detected framework. *)
Definition running (self : CodeAnalyzer) (framework : option string)
  (content : string) : list (string * regex) :=
  map (named SecRule.pattern)
    (filter (fun entry => negb (safe_pattern_found (snd entry) content))
       (security_patterns self))
  ++ map (named Rule.pattern) (resource_patterns self)
  ++ match framework with
     | Some fw =>
         if String.eqb fw "" then []
         else map (named Rule.pattern) (get (framework_patterns self) fw [])
     | None => []
     end.

(** What a dictionary of [check_credentials] says of where it was found. *)
Definition credential_place (i : Patterns.issue)
  : option string * option string :=
  (lookup "location" i, lookup "proof" i).

End Lines.

(* ================================================================== *)
(** * code_analyzer.py: [analyze_file] as the statements it runs *)

Module Method.
Import PyStr Re Py Analyzer.

(** What a call of [analyze_file] works on: the analyzer object [self] and
    the list bound to the local variable [issues].  The store a call
    leaves is the store the next call starts from. *)
Record store : Type := MkStore {
  object : CodeAnalyzer;
  issues : list Issue.t
}.

(** A statement: it yields a value and leaves a store. *)
Definition stmt (A : Type) : Type := store -> A * store.

Definition ret {A : Type} (a : A) : stmt A := fun s => (a, s).

Definition seq {A B : Type} (c : stmt A) (k : A -> stmt B) : stmt B :=
  fun s => let (a, s') := c s in k a s'.

Notation "x <~ c ;; k" := (seq c (fun x => k))
  (at level 61, c at next level, right associativity).
Notation "c ;;; k" := (seq c (fun _ => k))
  (at level 61, right associativity).

(** [self.table] *)
Definition attr {A : Type} (table : CodeAnalyzer -> A) : stmt A :=
  fun s => (table (object s), s).

(** [issues = []] *)
Definition new_issues : stmt unit :=
  fun s => (tt, MkStore (object s) []).

(** [issues.append(x)] *)
Definition issues_append (x : Issue.t) : stmt unit :=
  fun s => (tt, MkStore (object s) (issues s ++ [x])).

(** The value of [issues]. *)
Definition read_issues : stmt (list Issue.t) :=
  fun s => (issues s, s).

(** [for x in xs: body] *)
Fixpoint for_each {A : Type} (xs : list A) (body : A -> stmt unit)
  : stmt unit :=
  match xs with
  | [] => ret tt
  | x :: xs' => body x ;;; for_each xs' body
  end.

(** The body of [analyze_file], statement by statement, the text of the
    file being [content].  The statements that change an object are
    [issues = []] and the three [issues.append]; the tables of [self] are
    read. *)
Definition analyze_file (file_path content : string) : stmt (list Issue.t) :=
  new_issues ;;;
  let framework := _detect_framework content in
  (* check security patterns *)
  security <~ attr security_patterns ;;
  for_each security (fun entry =>
    let (name, pattern) := entry in
    for_each (finditer (SecRule.pattern pattern) content) (fun m =>
      if safe_pattern_found pattern content then ret tt
      else issues_append
             (issue_of file_path content name (SecRule.severity pattern)
                (SecRule.description pattern) (SecRule.fix_ pattern) m))) ;;;
  (* check resource patterns *)
  resource <~ attr resource_patterns ;;
  for_each resource (fun entry =>
    let (name, pattern) := entry in
    for_each (finditer (Rule.pattern pattern) content) (fun m =>
      issues_append
        (issue_of file_path content name (Rule.severity pattern)
           (Rule.description pattern) (Rule.fix_ pattern) m))) ;;;
  (* check framework-specific patterns *)
  table <~ attr framework_patterns ;;
  match framework with
  | Some fw =>
      if String.eqb fw "" then ret tt else
      match lookup fw table with
      | Some rules =>
          for_each rules (fun entry =>
            let (name, pattern) := entry in
            for_each (finditer (Rule.pattern pattern) content) (fun m =>
              issues_append
                (issue_of file_path content name (Rule.severity pattern)
                   (Rule.description pattern) (Rule.fix_ pattern) m)))
      | None => ret tt
      end
  | None => ret tt
  end ;;;
  found <~ read_issues ;;
  ret (sort_issues found).

(** Calls of the method, one after the other, on one store: each pair is a
    path and the content read from it. *)
Fixpoint calls (inputs : list (string * string)) : stmt (list (list Issue.t)) :=
  match inputs with
  | [] => ret []
  | (file_path, content) :: rest =>
      result <~ analyze_file file_path content ;;
      results <~ calls rest ;;
      ret (result :: results)
  end.

(** The store with [found] appended to [issues]. *)
Definition grown (found : list Issue.t) (s : store) : store :=
  MkStore (object s) (issues s ++ found).

End Method.

(* ================================================================== *)
(** * Facts about the matcher *)

Module ReFacts.
Import PyStr Re.

Lemma match_here_some (r : regex) (pos : nat) (s rest : string) :
  rmatch r s Some = Some rest -> exists m, match_here r pos s = Some m.
Proof. unfold match_here. intros ->. eauto. Qed.

(** A match at some offset makes the leftmost scan succeed. *)
Lemma scan_finds (r : regex) (before s rest : string) :
  rmatch r s Some = Some rest ->
  forall pos, exists m, scan r pos (before ++ s) = Some m.
Proof.
  intros H. induction before as [|c before IH]; intros pos.
  - cbn [append]. destruct (match_here_some r pos s rest H) as [m Hm].
    exists m. destruct s; cbn [scan]; now rewrite Hm.
  - cbn [append scan].
    destruct (match_here r pos (String c (before ++ s))) as [m|]; eauto.
Qed.

Lemma search_finds (r : regex) (before s rest : string) :
  rmatch r s Some = Some rest -> search r (before ++ s) = true.
Proof.
  intros H. unfold search.
  now destruct (scan_finds r before s rest H 0) as [m ->].
Qed.

(** ** What a match consumes *)

Lemma reaches_le (k : string -> option string) (t : string) (n m : nat) :
  n <= m -> reaches k t n -> reaches k t m.
Proof. intros L (s' & L' & H). exists s'. split; [lia|assumption]. Qed.

Lemma star_loop_le (step : string -> (string -> option string) -> option string)
  (greedy : bool) (k : string -> option string) :
  (forall s k' t', step s k' = Some t' -> reaches k' t' (String.length s)) ->
  forall fuel s t, star_loop step greedy k fuel s = Some t ->
                   reaches k t (String.length s).
Proof.
  intros Hstep. induction fuel as [|fuel IH]; intros s t H; cbn [star_loop] in H.
  - now exists s.
  - assert (A : forall t',
               step s (fun s1 => if String.length s1 <? String.length s
                                 then star_loop step greedy k fuel s1 else None)
               = Some t' -> reaches k t' (String.length s)).
    { intros t' E. apply Hstep in E. destruct E as (s1 & L1 & E).
      destruct (Nat.ltb_spec (String.length s1) (String.length s));
        [|discriminate].
      apply IH in E. eapply reaches_le; [|exact E]. lia. }
    destruct greedy.
    + match type of H with match ?x with _ => _ end = _ =>
        destruct x eqn:E end.
      * injection H as ->. now apply A.
      * now exists s.
    + destruct (k s) eqn:E.
      * injection H as ->. now exists s.
      * now apply A.
Qed.

Lemma rmatch_le (r : regex) :
  forall s k t, rmatch r s k = Some t -> reaches k t (String.length s).
Proof.
  induction r as [|c| |items|items|r1 IH1 r2 IH2|r1 IH1 r2 IH2|g r1 IH1|r1 IH1];
    intros s k t H; cbn [rmatch] in H.
  1: now exists s.
  1-4: destruct s as [|c' s']; [discriminate|];
       match type of H with match ?a with _ => _ end = _ =>
         destruct a as [[|]|] end; try discriminate;
       exists s'; cbn [String.length]; split; [lia|assumption].
  - apply IH1 in H. destruct H as (s1 & L1 & H).
    apply IH2 in H. eapply reaches_le; [|exact H]. lia.
  - destruct (rmatch r1 s k) eqn:E.
    + injection H as ->. now apply IH1 in E.
    + now apply IH2 in H.
  - eapply star_loop_le; [|exact H]. intros s0 k' t'. apply IH1.
  - destruct (rmatch r1 s Some); [discriminate|]. now exists s.
Qed.

Lemma rmatch_lt (r : regex) :
  nullable r = false ->
  forall s k t, rmatch r s k = Some t ->
    exists s', String.length s' < String.length s /\ k s' = Some t.
Proof.
  induction r as [|c| |items|items|r1 IH1 r2 IH2|r1 IH1 r2 IH2|g r1 IH1|r1 IH1];
    cbn [nullable]; intros N s k t H; try discriminate; cbn [rmatch] in H.
  1-4: destruct s as [|c' s']; [discriminate|];
       match type of H with match ?a with _ => _ end = _ =>
         destruct a as [[|]|] end; try discriminate;
       exists s'; cbn [String.length]; split; [lia|assumption].
  - apply andb_false_iff in N. destruct N as [N|N].
    + apply (IH1 N) in H. destruct H as (s1 & L1 & H).
      apply rmatch_le in H. destruct H as (s2 & L2 & H).
      exists s2. split; [lia|assumption].
    + apply rmatch_le in H. destruct H as (s1 & L1 & H).
      apply (IH2 N) in H. destruct H as (s2 & L2 & H).
      exists s2. split; [lia|assumption].
  - apply orb_false_iff in N. destruct N as [N1 N2].
    destruct (rmatch r1 s k) eqn:E.
    + injection H as ->. now apply (IH1 N1) in E.
    + now apply (IH2 N2) in H.
Qed.

Lemma length_take (n : nat) (s : string) :
  n <= String.length s -> String.length (take n s) = n.
Proof.
  revert s. induction n as [|n IH]; intros [|c s] L; cbn in *; try lia.
  rewrite IH; lia.
Qed.

Lemma match_here_not_empty (r : regex) (pos : nat) (s : string) (m : rmatch_obj) :
  nullable r = false -> match_here r pos s = Some m ->
  m_start m = pos /\ m_start m < m_end m
  /\ String.length (m_group m) = m_end m - m_start m.
Proof.
  unfold match_here. intros N H.
  destruct (rmatch r s Some) as [rest|] eqn:E; [|discriminate].
  apply (rmatch_lt r N) in E. destruct E as (s' & L & [= ->]).
  injection H as <-. cbn [m_start m_end m_group].
  rewrite length_take by lia. lia.
Qed.

Lemma scan_not_empty (r : regex) :
  nullable r = false ->
  forall s pos m, scan r pos s = Some m ->
    pos <= m_start m /\ m_start m < m_end m
    /\ String.length (m_group m) = m_end m - m_start m.
Proof.
  intros N. induction s as [|c s IH]; intros pos m H; cbn [scan] in H.
  - destruct (match_here r pos "") eqn:E; [|discriminate].
    injection H as ->. apply (match_here_not_empty _ _ _ _ N) in E. lia.
  - destruct (match_here r pos (String c s)) eqn:E.
    + injection H as ->. apply (match_here_not_empty _ _ _ _ N) in E. lia.
    + apply IH in H. lia.
Qed.

Lemma finditer_from_not_empty (r : regex) :
  nullable r = false ->
  forall fuel pos s m, In m (finditer_from fuel r pos s) ->
    pos <= m_start m /\ m_start m < m_end m
    /\ String.length (m_group m) = m_end m - m_start m.
Proof.
  intros N. induction fuel as [|fuel IH]; intros pos s m H; cbn [finditer_from] in H;
    [destruct H|].
  destruct (scan r pos s) as [m0|] eqn:E; [|destruct H].
  apply (scan_not_empty r N) in E.
  destruct H as [<-|H]; [exact E|].
  destruct (Nat.eqb_spec (m_end m0) (m_start m0)); [lia|].
  destruct (String.length s <? m_end m0 - pos); [destruct H|].
  apply IH in H. lia.
Qed.

Lemma length_drop (n : nat) (s : string) :
  String.length (drop n s) = String.length s - n.
Proof.
  revert s. induction n as [|n IH]; intros [|c s]; cbn; try lia. apply IH.
Qed.

Lemma drop_drop (a b : nat) (s : string) : drop a (drop b s) = drop (b + a) s.
Proof.
  revert s. induction b as [|b IH]; intros s; [reflexivity|].
  destruct s as [|c s]; cbn [drop Nat.add]; [now destruct a|apply IH].
Qed.

Lemma drop_next (n : nat) (content : string) (c : ascii) (s : string) :
  drop n content = String c s -> drop (S n) content = s.
Proof.
  intros H. replace (S n) with (n + 1) by lia.
  now rewrite <- drop_drop, H.
Qed.

Lemma match_here_located (r : regex) (pos : nat) (content : string)
  (m : rmatch_obj) :
  pos <= String.length content ->
  match_here r pos (drop pos content) = Some m ->
  m_start m = pos /\ located content m.
Proof.
  unfold match_here, located. intros L H.
  destruct (rmatch r (drop pos content) Some) as [rest|] eqn:E; [|discriminate].
  apply rmatch_le in E. destruct E as (s' & L' & [= ->]).
  injection H as <-. cbn [m_start m_end m_group].
  rewrite length_drop in *.
  replace (pos + _ - pos) with (String.length content - pos - String.length rest)
    by lia.
  repeat split; lia.
Qed.

Lemma scan_located (r : regex) (content : string) :
  forall s pos m,
    s = drop pos content -> pos <= String.length content ->
    scan r pos s = Some m -> pos <= m_start m /\ located content m.
Proof.
  induction s as [|c s IH]; intros pos m Hs L H; cbn [scan] in H.
  - destruct (match_here r pos "") eqn:E; [|discriminate].
    injection H as ->. rewrite Hs in E.
    apply match_here_located in E; [|exact L]. destruct E as [<- E]. auto.
  - destruct (match_here r pos (String c s)) eqn:E.
    + injection H as ->. rewrite Hs in E.
      apply match_here_located in E; [|exact L]. destruct E as [<- E]. auto.
    + symmetry in Hs. pose proof (length_drop pos content) as Hl.
      rewrite Hs in Hl. cbn [String.length] in Hl.
      apply drop_next in Hs. symmetry in Hs.
      apply (IH (S pos) m Hs) in H; [|lia]. split; [lia|apply H].
Qed.

Lemma finditer_from_located (r : regex) (content : string) :
  forall fuel pos s m,
    s = drop pos content -> pos <= String.length content ->
    In m (finditer_from fuel r pos s) -> located content m.
Proof.
  induction fuel as [|fuel IH]; intros pos s m Hs L H;
    cbn [finditer_from] in H; [destruct H|].
  destruct (scan r pos s) as [m0|] eqn:E; [|destruct H].
  apply (scan_located r content s pos m0 Hs L) in E. destruct E as [Lp E].
  destruct H as [<-|H]; [exact E|].
  set (next := if m_end m0 =? m_start m0 then S (m_end m0) else m_end m0) in *.
  destruct (Nat.ltb_spec (String.length s) (next - pos)) as [|Ln];
    [destruct H|].
  assert (pos <= next).
  { destruct E as (E1 & _). subst next.
    destruct (m_end m0 =? m_start m0); lia. }
  rewrite Hs, length_drop in Ln.
  apply (IH next (drop (next - pos) s) m); [|lia|exact H].
  rewrite Hs, drop_drop. f_equal. lia.
Qed.

Lemma finditer_located (r : regex) (content : string) (m : rmatch_obj) :
  In m (finditer r content) -> located content m.
Proof.
  unfold finditer. apply finditer_from_located; [reflexivity|lia].
Qed.

Lemma finditer_not_empty (r : regex) (content : string) (m : rmatch_obj) :
  nullable r = false -> In m (finditer r content) -> m_start m < m_end m.
Proof.
  unfold finditer. intros N H.
  now apply (finditer_from_not_empty r N) in H.
Qed.

(** ** The fuel of [finditer] *)

Lemma match_here_bounds (r : regex) (pos : nat) (s : string) (m : rmatch_obj) :
  match_here r pos s = Some m ->
  m_start m = pos /\ m_start m <= m_end m
  /\ m_end m <= pos + String.length s.
Proof.
  unfold match_here. destruct (rmatch r s Some) as [rest|]; [|discriminate].
  intros [= <-]. cbn [m_start m_end]. lia.
Qed.

Lemma scan_bounds (r : regex) :
  forall s pos m, scan r pos s = Some m ->
    pos <= m_start m /\ m_start m <= m_end m
    /\ m_end m <= pos + String.length s.
Proof.
  induction s as [|c s IH]; intros pos m H; cbn [scan] in H.
  - destruct (match_here r pos "") eqn:E; [|discriminate].
    injection H as ->. apply match_here_bounds in E. lia.
  - destruct (match_here r pos (String c s)) eqn:E.
    + injection H as ->. apply match_here_bounds in E. lia.
    + apply IH in H. cbn [String.length]. lia.
Qed.

(** The fuel [finditer] gives is enough: more changes nothing. *)
Lemma finditer_from_fuel (r : regex) :
  forall fuel1 fuel2 pos s,
    String.length s < fuel1 -> String.length s < fuel2 ->
    finditer_from fuel1 r pos s = finditer_from fuel2 r pos s.
Proof.
  induction fuel1 as [|fuel1 IH]; intros fuel2 pos s L1 L2; [lia|].
  destruct fuel2 as [|fuel2]; [lia|]. cbn [finditer_from].
  destruct (scan r pos s) as [m|] eqn:E; [|reflexivity].
  apply scan_bounds in E. f_equal.
  set (next := if m_end m =? m_start m then S (m_end m) else m_end m).
  assert (pos < next).
  { subst next. destruct (Nat.eqb_spec (m_end m) (m_start m)); lia. }
  destruct (Nat.ltb_spec (String.length s) (next - pos)); [reflexivity|].
  apply IH; rewrite length_drop; lia.
Qed.

End ReFacts.

(* ================================================================== *)
(** * Facts about the sort *)

Module SortFacts.
Import Py.

Section Stable.
Context {A : Type} (lt : A -> A -> bool).

Lemma insert_perm (x : A) (l : list A) : Permutation (insert lt x l) (x :: l).
Proof.
  induction l as [|y l IH]; simpl; [reflexivity|].
  destruct (lt y x); [|reflexivity].
  rewrite IH. apply perm_swap.
Qed.

Lemma sorted_perm (l : list A) : Permutation (sorted lt l) l.
Proof.
  induction l as [|x l IH]; simpl; [constructor|].
  rewrite insert_perm. now constructor.
Qed.

Lemma sorted_in (l : list A) (x : A) : In x (sorted lt l) <-> In x l.
Proof.
  split; apply Permutation_in; [|symmetry]; apply sorted_perm.
Qed.

(** The order properties hold on the elements that satisfy [P] only. *)
Variable P : A -> Prop.

Hypothesis lt_asym :
  forall x y, P x -> P y -> lt x y = true -> lt y x = false.
Hypothesis not_lt_trans :
  forall x y z, P x -> P y -> P z ->
    lt y x = false -> lt z y = false -> lt z x = false.

Lemma sorted_all (l : list A) : Forall P l -> Forall P (sorted lt l).
Proof.
  intros H. rewrite Forall_forall in *. intros x Hx.
  apply H. now apply sorted_in.
Qed.

Lemma insert_sorted (x : A) (l : list A) :
  P x -> Forall P l ->
  StronglySorted (may_precede lt) l -> StronglySorted (may_precede lt) (insert lt x l).
Proof.
  intros Px Pl Hs. induction Hs as [|y l Hs IH Hy]; simpl.
  - repeat constructor.
  - inversion Pl as [|? ? Py Pl']; subst.
    destruct (lt y x) eqn:E.
    + constructor; [now apply IH|].
      rewrite Forall_forall in *. intros z Hz.
      apply (Permutation_in _ (insert_perm x l)) in Hz.
      destruct Hz as [<-|Hz]; [now apply lt_asym | now apply Hy].
    + constructor; [now constructor|].
      constructor; [exact E|].
      rewrite Forall_forall in *. intros z Hz.
      apply (not_lt_trans x y z); auto. now apply Hy.
Qed.

Lemma sorted_sorted (l : list A) :
  Forall P l -> StronglySorted (may_precede lt) (sorted lt l).
Proof.
  induction 1 as [|x l Px Pl IH]; simpl; [constructor|].
  apply insert_sorted; auto using sorted_all.
Qed.

Lemma insert_tied (x0 x : A) (l : list A) :
  P x0 -> P x -> Forall P l ->
  filter (tied lt x0) (insert lt x l) = filter (tied lt x0) (x :: l).
Proof.
  intros P0 Px Pl. induction Pl as [|y l Py Pl IH]; [reflexivity|].
  cbn [insert]. destruct (lt y x) eqn:E; [|reflexivity].
  cbn [filter] in *. rewrite IH.
  destruct (tied lt x0 x) eqn:Tx; [|reflexivity].
  destruct (tied lt x0 y) eqn:Ty; [|reflexivity].
  exfalso. unfold tied in Tx, Ty.
  apply andb_true_iff in Tx, Ty.
  destruct Tx as [Tx _], Ty as [_ Ty].
  apply negb_true_iff in Tx, Ty.
  rewrite (not_lt_trans x x0 y) in E; auto. discriminate.
Qed.

Lemma sorted_stable (x0 : A) (l : list A) :
  P x0 -> Forall P l ->
  filter (tied lt x0) (sorted lt l) = filter (tied lt x0) l.
Proof.
  intros P0 Pl. induction Pl as [|x l Px Pl IH]; [reflexivity|].
  cbn [sorted]. rewrite insert_tied by auto using sorted_all.
  cbn [filter]. now rewrite IH.
Qed.

End Stable.

End SortFacts.

(* ================================================================== *)
(** * Facts about the confidence score *)

Module ConfidenceFacts.
Import PyStr Re Py Analyzer Confidence.

Lemma base_cases (severity : string) :
  In (get severity_confidence severity 0.5%float) bases
  /\ get severity_confidence severity 0.5%float = spec_base severity.
Proof.
  unfold get, severity_confidence, spec_base, bases. cbn [lookup].
  destruct (String.eqb severity "Critical"); [cbn; tauto|].
  destruct (String.eqb severity "High"); [cbn; tauto|].
  destruct (String.eqb severity "Medium"); [cbn; tauto|].
  destruct (String.eqb severity "Low"); cbn; tauto.
Qed.

Lemma has_safe_pattern_spec (issue : Probe.t) :
  _has_safe_pattern issue
  = spec_proof_is_safe (Probe.type_ issue) (Probe.proof issue).
Proof.
  unfold _has_safe_pattern, spec_proof_is_safe, get, safe_patterns.
  cbn [lookup].
  destruct (String.eqb (Probe.type_ issue) "hardcoded_secrets") eqn:E1.
  - apply String.eqb_eq in E1. rewrite E1. cbn.
    now rewrite !orb_false_r, orb_assoc.
  - destruct (String.eqb (Probe.type_ issue) "sql_injection"); cbn.
    + now rewrite orb_false_r.
    + reflexivity.
Qed.

Lemma one_times_base (b : float) : In b bases -> (1.0 * b)%float = b.
Proof.
  unfold bases. cbn [In].
  intros H; repeat (destruct H as [<-|H]; [reflexivity|]); destruct H.
Qed.

Lemma confidence_in_values (issue : Probe.t) :
  In (_calculate_confidence issue) conf_values.
Proof.
  unfold _calculate_confidence.
  destruct (base_cases (Probe.severity issue)) as [Hb _].
  rewrite (one_times_base _ Hb).
  set (b := get severity_confidence (Probe.severity issue) 0.5%float) in *.
  clearbody b.
  unfold conf_values. apply in_flat_map. exists b. split; [exact Hb|].
  destruct (contains "test" (lower (Probe.file issue)));
    destruct (_has_safe_pattern issue); cbn [In]; auto.
Qed.

Lemma values_within : forallb (within 0.95%float) conf_values = true.
Proof. vm_compute. reflexivity. Qed.

Lemma confidence_within (issue : Probe.t) :
  within 0.95%float (_calculate_confidence issue) = true.
Proof.
  pose proof values_within as H. rewrite forallb_forall in H.
  apply H, confidence_in_values.
Qed.

Lemma spec_confidence_eq (issue : Probe.t) :
  _calculate_confidence issue = spec_confidence issue.
Proof.
  unfold _calculate_confidence, spec_confidence.
  destruct (base_cases (Probe.severity issue)) as [Hb Hs].
  rewrite (one_times_base _ Hb), has_safe_pattern_spec, Hs.
  unfold spec_test_factor, spec_safe_factor.
  rewrite <- Hs. clear Hs.
  set (b := get severity_confidence (Probe.severity issue) 0.5%float) in *.
  clearbody b. unfold bases in Hb. cbn [In] in Hb.
  destruct (contains "test" (lower (Probe.file issue)));
    destruct (spec_proof_is_safe (Probe.type_ issue) (Probe.proof issue));
    repeat (destruct Hb as [<-|Hb]; [reflexivity|]); destruct Hb.
Qed.

End ConfidenceFacts.

(* ================================================================== *)
(** * Facts about the order of the report *)

Module OrderFacts.
Import PyStr Re Py Analyzer Confidence Order SortFacts.

Lemma all2_spec (f : float -> float -> bool) :
  all2 f = true ->
  forall a b, In a conf_values -> In b conf_values -> f a b = true.
Proof.
  unfold all2. intros H a b Ha Hb.
  rewrite forallb_forall in H. specialize (H a Ha).
  rewrite forallb_forall in H. now apply H.
Qed.

Lemma all3_spec (f : float -> float -> float -> bool) :
  all3 f = true ->
  forall a b c, In a conf_values -> In b conf_values -> In c conf_values ->
    f a b c = true.
Proof.
  unfold all3. intros H a b c Ha Hb Hc.
  rewrite forallb_forall in H. specialize (H a Ha).
  now apply all2_spec.
Qed.

Lemma neg_lt_asym (a b : float) :
  In a conf_values -> In b conf_values ->
  neg_lt a b = true -> neg_lt b a = false.
Proof.
  intros Ha Hb H.
  assert (C : all2 (fun a b => implb (neg_lt a b) (negb (neg_lt b a))) = true)
    by (vm_compute; reflexivity).
  pose proof (all2_spec _ C a b Ha Hb) as K. cbv beta in K.
  rewrite H in K. cbn in K. now apply negb_true_iff.
Qed.

Lemma neg_lt_trans (a b c : float) :
  In a conf_values -> In b conf_values -> In c conf_values ->
  neg_lt b a = false -> neg_lt c b = false -> neg_lt c a = false.
Proof.
  intros Ha Hb Hc H1 H2.
  assert (C : all3 (fun a b c =>
                      implb (negb (neg_lt b a) && negb (neg_lt c b))
                            (negb (neg_lt c a))) = true)
    by (vm_compute; reflexivity).
  pose proof (all3_spec _ C a b c Ha Hb Hc) as K. cbv beta in K.
  rewrite H1, H2 in K. cbn in K. now apply negb_true_iff.
Qed.

Lemma neg_lt_leb (a b : float) :
  In a conf_values -> In b conf_values ->
  neg_lt b a = false -> PrimFloat.leb b a = true.
Proof.
  intros Ha Hb H.
  assert (C : all2 (fun a b => implb (negb (neg_lt b a)) (PrimFloat.leb b a))
              = true)
    by (vm_compute; reflexivity).
  pose proof (all2_spec _ C a b Ha Hb) as K. cbv beta in K.
  now rewrite H in K.
Qed.

Lemma neg_lt_tied (a b : float) :
  In a conf_values -> In b conf_values ->
  negb (neg_lt a b) && negb (neg_lt b a) = PrimFloat.eqb a b.
Proof.
  intros Ha Hb.
  assert (C : all2 (fun a b =>
                      Bool.eqb (negb (neg_lt a b) && negb (neg_lt b a))
                               (PrimFloat.eqb a b)) = true)
    by (vm_compute; reflexivity).
  pose proof (all2_spec _ C a b Ha Hb) as K. cbv beta in K.
  now apply Bool.eqb_prop.
Qed.

Lemma issue_lt_unfold (x y : Issue.t) :
  issue_lt x y =
  if rank x =? rank y then neg_lt (Issue.confidence x) (Issue.confidence y)
  else rank x <? rank y.
Proof. reflexivity. Qed.

Ltac by_rank :=
  repeat match goal with
    | H : context [?n =? ?m] |- _ => destruct (Nat.eqb_spec n m)
    | |- context [?n =? ?m] => destruct (Nat.eqb_spec n m)
    | H : context [?n <? ?m] |- _ => destruct (Nat.ltb_spec n m)
    | |- context [?n <? ?m] => destruct (Nat.ltb_spec n m)
    end;
  try discriminate; try reflexivity; try lia.

Lemma issue_lt_asym (x y : Issue.t) :
  scored x -> scored y -> issue_lt x y = true -> issue_lt y x = false.
Proof.
  unfold scored. rewrite !issue_lt_unfold. intros Hx Hy H.
  by_rank. now apply neg_lt_asym.
Qed.

Lemma issue_not_lt_trans (x y z : Issue.t) :
  scored x -> scored y -> scored z ->
  issue_lt y x = false -> issue_lt z y = false -> issue_lt z x = false.
Proof.
  unfold scored. rewrite !issue_lt_unfold. intros Hx Hy Hz H1 H2.
  by_rank. now apply (neg_lt_trans _ (Issue.confidence y)).
Qed.

Lemma may_precede_ranked (x y : Issue.t) :
  scored x -> scored y -> may_precede issue_lt x y -> ranked_before x y.
Proof.
  unfold scored, may_precede, ranked_before. rewrite issue_lt_unfold.
  intros Hx Hy H. by_rank.
  right. split; [now symmetry|]. now apply neg_lt_leb.
Qed.

Lemma tied_same_key (x y : Issue.t) :
  scored x -> scored y -> tied issue_lt x y = same_key x y.
Proof.
  unfold scored, tied, same_key. rewrite !issue_lt_unfold. intros Hx Hy.
  by_rank; cbn [andb]; try (exfalso; lia).
  now apply neg_lt_tied.
Qed.

End OrderFacts.

(* ================================================================== *)
(** * Facts about where findings come from *)

Module ProvenanceFacts.
Import PyStr Re Py Analyzer Confidence Order Provenance.

Lemma scan_security_inv (file_path content name : string) (rule : SecRule.t)
  (f : Issue.t) :
  In f (scan_security file_path content (name, rule)) ->
  (forall safe, SecRule.safe_pattern rule = Some safe ->
                search safe content = false)
  /\ exists m, In m (finditer (SecRule.pattern rule) content)
       /\ f = issue_of file_path content name (SecRule.severity rule)
                (SecRule.description rule) (SecRule.fix_ rule) m.
Proof.
  unfold scan_security, safe_pattern_found. rewrite in_flat_map.
  intros (m & Hm & Hf).
  destruct (SecRule.safe_pattern rule) as [safe|] eqn:E.
  - destruct (search safe content) eqn:S; [destruct Hf|].
    destruct Hf as [<-|[]]. split; [|now exists m].
    now intros ? [= <-].
  - destruct Hf as [<-|[]]. split; [discriminate|now exists m].
Qed.

Lemma scan_rule_inv (file_path content name : string) (rule : Rule.t)
  (f : Issue.t) :
  In f (scan_rule file_path content (name, rule)) ->
  exists m, In m (finditer (Rule.pattern rule) content)
    /\ f = issue_of file_path content name (Rule.severity rule)
             (Rule.description rule) (Rule.fix_ rule) m.
Proof.
  unfold scan_rule. rewrite in_map_iff. intros (m & <- & Hm). now exists m.
Qed.

Lemma lookup_in {V : Type} (k : string) (d : list (string * V)) (v : V) :
  lookup k d = Some v -> In (k, v) d.
Proof.
  induction d as [|[k' v'] d IH]; cbn; [discriminate|].
  destruct (String.eqb_spec k k') as [->|_].
  - intros [= ->]. now left.
  - intros H. right. now apply IH.
Qed.

Lemma scan_security_intro (file_path content name : string)
  (rule : SecRule.t) (m : rmatch_obj) :
  (forall safe, SecRule.safe_pattern rule = Some safe ->
                search safe content = false) ->
  In m (finditer (SecRule.pattern rule) content) ->
  In (issue_of file_path content name (SecRule.severity rule)
        (SecRule.description rule) (SecRule.fix_ rule) m)
     (scan_security file_path content (name, rule)).
Proof.
  intros Hsafe Hm. unfold scan_security, safe_pattern_found.
  apply in_flat_map. exists m.
  split; [exact Hm|].
  destruct (SecRule.safe_pattern rule) as [safe|]; [|now left].
  rewrite (Hsafe safe eq_refl). now left.
Qed.

(** A finding is collected exactly when it is the record [issue_of] builds
    for a match of a rule that applies. *)
Lemma collect_iff (self : CodeAnalyzer) (framework : option string)
  (file_path content : string) (f : Issue.t) :
  In f (collect self framework file_path content) <->
  exists name r severity description fix_ m,
    applies self framework content name r severity description fix_
    /\ In m (finditer r content)
    /\ f = issue_of file_path content name severity description fix_ m.
Proof.
  unfold collect. rewrite !in_app_iff, !in_flat_map. split.
  2:{ intros (name & r & sev & descr & fx & m & Ha & Hm & ->).
      destruct Ha as [n rule Hr Hs | n rule Hr | fw rules n rule -> Hne Hl Hr].
      - left. exists (n, rule). split; [exact Hr|].
        now apply scan_security_intro.
      - right. left. exists (n, rule). split; [exact Hr|].
        unfold scan_rule. now apply in_map.
      - right. right. unfold scan_framework.
        destruct (String.eqb_spec fw "") as [E|_]; [contradiction|].
        rewrite Hl. apply in_flat_map. exists (n, rule). split; [exact Hr|].
        unfold scan_rule. now apply in_map. }
  intros [([name rule] & Hin & Hf) | [([name rule] & Hin & Hf) | Hf]].
  - apply scan_security_inv in Hf. destruct Hf as (Hsafe & m & Hm & ->).
    exists name, (SecRule.pattern rule), (SecRule.severity rule),
      (SecRule.description rule), (SecRule.fix_ rule), m.
    split; [now apply security_rule | now split].
  - apply scan_rule_inv in Hf. destruct Hf as (m & Hm & ->).
    exists name, (Rule.pattern rule), (Rule.severity rule),
      (Rule.description rule), (Rule.fix_ rule), m.
    split; [now apply resource_rule | now split].
  - unfold scan_framework in Hf.
    destruct framework as [fw|]; [|destruct Hf].
    destruct (String.eqb_spec fw "") as [|Hne]; [destruct Hf|].
    destruct (lookup fw (framework_patterns self)) as [rules|] eqn:L;
      [|destruct Hf].
    apply in_flat_map in Hf. destruct Hf as ([name rule] & Hin & Hf).
    apply scan_rule_inv in Hf. destruct Hf as (m & Hm & ->).
    exists name, (Rule.pattern rule), (Rule.severity rule),
      (Rule.description rule), (Rule.fix_ rule), m.
    split; [now apply (framework_rule _ _ _ fw rules) | now split].
Qed.

Lemma collect_inv (self : CodeAnalyzer) (framework : option string)
  (file_path content : string) (f : Issue.t) :
  In f (collect self framework file_path content) ->
  exists name r severity description fix_ m,
    applies self framework content name r severity description fix_
    /\ In m (finditer r content)
    /\ f = issue_of file_path content name severity description fix_ m.
Proof. apply collect_iff. Qed.

Lemma analyze_file_collect (self : CodeAnalyzer) (file_path content : string)
  (f : Issue.t) :
  In f (analyze_file self file_path content)
  <-> In f (collect self (_detect_framework content) file_path content).
Proof. apply SortFacts.sorted_in. Qed.

Lemma collect_scored (self : CodeAnalyzer) (framework : option string)
  (file_path content : string) :
  Forall scored (collect self framework file_path content).
Proof.
  apply Forall_forall. intros f Hf.
  apply collect_inv in Hf.
  destruct Hf as (name & r & sev & descr & fx & m & _ & _ & ->).
  apply ConfidenceFacts.confidence_in_values.
Qed.

End ProvenanceFacts.

(* ================================================================== *)
(** * Facts about lines *)

Module LineFacts.
Import PyStr Re Py Analyzer Provenance Lines.
Import ProvenanceFacts.

Lemma map_flat_map {A B C : Type} (h : B -> C) (g : A -> list B) (l : list A) :
  map h (flat_map g l) = flat_map (fun x => map h (g x)) l.
Proof.
  induction l as [|x l IH]; [reflexivity|].
  cbn [flat_map]. now rewrite map_app, IH.
Qed.

Lemma flat_map_over_map {A B C : Type} (h : A -> B) (g : B -> list C)
  (l : list A) :
  flat_map g (map h l) = flat_map (fun x => g (h x)) l.
Proof.
  induction l as [|x l IH]; [reflexivity|]. cbn [map flat_map]. now rewrite IH.
Qed.

Lemma places_of_rule (file_path content : string) (entry : string * Rule.t) :
  map place (scan_rule file_path content entry)
  = places content (named Rule.pattern entry).
Proof.
  destruct entry as [name rule]. unfold scan_rule, places, named. cbn [fst snd].
  rewrite map_map. reflexivity.
Qed.

Lemma places_of_rules (file_path content : string)
  (table : list (string * Rule.t)) :
  map place (flat_map (scan_rule file_path content) table)
  = flat_map (places content) (map (named Rule.pattern) table).
Proof.
  rewrite map_flat_map, flat_map_over_map.
  apply flat_map_ext. intros entry. apply places_of_rule.
Qed.

Lemma places_of_securities (file_path content : string)
  (table : list (string * SecRule.t)) :
  map place (flat_map (scan_security file_path content) table)
  = flat_map (places content)
      (map (named SecRule.pattern)
         (filter (fun entry => negb (safe_pattern_found (snd entry) content))
            table)).
Proof.
  induction table as [|[name rule] table IH]; [reflexivity|].
  cbn [flat_map filter snd]. rewrite map_app, IH. unfold scan_security at 1.
  destruct (safe_pattern_found rule content); cbn [negb].
  - replace (flat_map _ (finditer (SecRule.pattern rule) content))
      with (@nil Issue.t); [reflexivity|].
    induction (finditer (SecRule.pattern rule) content) as [|m ms IHm];
      [reflexivity | exact IHm].
  - cbn [map flat_map]. f_equal. unfold places, named. cbn [fst snd].
    induction (finditer (SecRule.pattern rule) content) as [|m ms IHm];
      [reflexivity|].
    cbn [flat_map map app]. now rewrite IHm.
Qed.

(** In discovery order, finding after finding and match after match. *)
Lemma places_of_collect (self : CodeAnalyzer) (framework : option string)
  (file_path content : string) :
  map place (collect self framework file_path content)
  = flat_map (places content) (running self framework content).
Proof.
  unfold collect, running.
  rewrite !map_app, !flat_map_app, places_of_securities, places_of_rules.
  do 2 f_equal. unfold scan_framework, get.
  destruct framework as [fw|]; [|reflexivity].
  destruct (String.eqb fw ""); [reflexivity|].
  destruct (lookup fw (framework_patterns self)) as [rules|]; [|reflexivity].
  apply places_of_rules.
Qed.

Lemma found_false (rule : SecRule.t) (content : string) :
  safe_pattern_found rule content = false <->
  (forall safe, SecRule.safe_pattern rule = Some safe ->
                search safe content = false).
Proof.
  unfold safe_pattern_found. destruct (SecRule.safe_pattern rule) as [safe|].
  - split; [now intros H ? [= <-] | intros H; now apply H].
  - split; [discriminate | reflexivity].
Qed.

(** [running] lists the patterns of the rules that apply, under their
    names. *)
Lemma running_applies (self : CodeAnalyzer) (framework : option string)
  (content name : string) (r : regex) :
  In (name, r) (running self framework content) <->
  exists severity description fix_,
    applies self framework content name r severity description fix_.
Proof.
  unfold running. rewrite !in_app_iff, !in_map_iff. split.
  - intros [([n rule] & [= <- <-] & H) | [([n rule] & [= <- <-] & H) | H]].
    + apply filter_In in H. destruct H as [Hin Hs]. cbn [snd] in Hs.
      apply negb_true_iff in Hs.
      pose proof (proj1 (found_false rule content) Hs) as Hsafe.
      do 3 eexists. now apply security_rule.
    + do 3 eexists. now apply resource_rule.
    + destruct framework as [fw|]; [|destruct H].
      destruct (String.eqb_spec fw "") as [|Hne]; [destruct H|].
      unfold get in H.
      destruct (lookup fw (framework_patterns self)) as [rules|] eqn:L;
        [|destruct H].
      apply in_map_iff in H. destruct H as ([n rule] & [= <- <-] & H).
      do 3 eexists. now apply (framework_rule _ _ _ fw rules).
  - intros (sev & descr & fx & Ha).
    destruct Ha as [n rule Hr Hs | n rule Hr | fw rules n rule -> Hne Hl Hr].
    + left. exists (n, rule). split; [reflexivity|].
      apply filter_In. split; [exact Hr|].
      cbn [snd]. apply negb_true_iff.
      now apply (proj2 (found_false rule content)).
    + right. left. now exists (n, rule).
    + right. right. destruct (String.eqb_spec fw "") as [|_]; [contradiction|].
      unfold get. rewrite Hl. apply in_map_iff. now exists (n, rule).
Qed.

End LineFacts.

(* ================================================================== *)
(** * Facts about the statements of [analyze_file] *)

Module MethodFacts.
Import PyStr Re Py Analyzer Method.

Lemma grown_nil (s : store) : grown [] s = s.
Proof. destruct s. unfold grown. cbn. now rewrite app_nil_r. Qed.

Lemma grown_app (l l' : list Issue.t) (s : store) :
  grown l' (grown l s) = grown (l ++ l') s.
Proof. unfold grown. cbn. now rewrite app_assoc. Qed.

(** A loop whose body appends [found x] appends them all, round after
    round. *)
Lemma for_each_grows {A : Type} (found : A -> list Issue.t)
  (body : A -> stmt unit) (xs : list A) :
  (forall x s, In x xs -> body x s = (tt, grown (found x) s)) ->
  forall s, for_each xs body s = (tt, grown (flat_map found xs) s).
Proof.
  induction xs as [|x xs IH]; intros H s.
  - cbn. now rewrite grown_nil.
  - cbn [for_each flat_map]. unfold seq. rewrite H by now left.
    rewrite IH by (intros; apply H; now right).
    now rewrite grown_app.
Qed.

Lemma security_loop (file_path content : string)
  (table : list (string * SecRule.t)) (s : store) :
  for_each table (fun entry =>
    let (name, pattern) := entry in
    for_each (finditer (SecRule.pattern pattern) content) (fun m =>
      if safe_pattern_found pattern content then ret tt
      else issues_append
             (issue_of file_path content name (SecRule.severity pattern)
                (SecRule.description pattern) (SecRule.fix_ pattern) m))) s
  = (tt, grown (flat_map (scan_security file_path content) table) s).
Proof.
  apply for_each_grows. intros [name pattern] s' _.
  unfold scan_security. apply for_each_grows. intros m s'' _.
  destruct (safe_pattern_found pattern content).
  - unfold ret. now rewrite grown_nil.
  - reflexivity.
Qed.

Lemma map_one_by_one {A B : Type} (g : A -> B) (l : list A) :
  map g l = flat_map (fun x => [g x]) l.
Proof. induction l as [|x l IH]; [reflexivity|]. cbn. now rewrite IH. Qed.

Lemma rule_loop (file_path content : string) (table : list (string * Rule.t))
  (s : store) :
  for_each table (fun entry =>
    let (name, pattern) := entry in
    for_each (finditer (Rule.pattern pattern) content) (fun m =>
      issues_append
        (issue_of file_path content name (Rule.severity pattern)
           (Rule.description pattern) (Rule.fix_ pattern) m))) s
  = (tt, grown (flat_map (scan_rule file_path content) table) s).
Proof.
  apply for_each_grows. intros [name pattern] s' _.
  unfold scan_rule. rewrite map_one_by_one.
  apply for_each_grows. reflexivity.
Qed.

(** The statements of the method leave the analyzer as they found it, leave
    in [issues] the findings in discovery order, whatever the list held
    before, and return them sorted. *)
Lemma analyze_file_run (file_path content : string) (s : store) :
  Method.analyze_file file_path content s
  = (Analyzer.analyze_file (object s) file_path content,
     MkStore (object s)
       (collect (object s) (_detect_framework content) file_path content)).
Proof.
  unfold Method.analyze_file, seq, new_issues, attr, read_issues, ret.
  cbn [object issues].
  rewrite security_loop, rule_loop. cbn [grown object issues app].
  unfold Analyzer.analyze_file, analyze_with, collect, scan_framework.
  destruct (_detect_framework content) as [fw|].
  2:{ cbn [issues]. now rewrite app_nil_r. }
  destruct (String.eqb fw "").
  { cbn [issues]. now rewrite app_nil_r. }
  destruct (lookup fw (framework_patterns (object s))) as [rules|].
  2:{ cbn [issues]. now rewrite app_nil_r. }
  rewrite rule_loop. cbn [grown object issues]. now rewrite app_assoc.
Qed.

Lemma calls_run (inputs : list (string * string)) (s : store) :
  object (snd (calls inputs s)) = object s
  /\ fst (calls inputs s)
     = map (fun input =>
              Analyzer.analyze_file (object s) (fst input) (snd input)) inputs.
Proof.
  revert s. induction inputs as [|[file_path content] inputs IH]; intros s.
  - now split.
  - cbn [calls map fst snd]. unfold seq. rewrite analyze_file_run.
    specialize (IH (MkStore (object s)
       (collect (object s) (_detect_framework content) file_path content))).
    destruct (calls inputs _) as [results s']. cbn [fst snd object] in *.
    destruct IH as [E1 E2]. unfold ret. cbn [fst snd].
    split; [exact E1 | now rewrite E2].
Qed.

End MethodFacts.

(* ================================================================== *)
(** * Properties of [analyze_file] *)

Module AnalyzerProps.
Import PyStr Re Py Analyzer Confidence Order Provenance Samples.
Import ProvenanceFacts.
Import Lines.

(** ** File-wide suppression *)

Lemma findings_of_nil (name : string) (report : list Issue.t) :
  (forall f, In f report -> String.eqb (Issue.type_ f) name = false) ->
  findings_of name report = [].
Proof.
  intros H. unfold findings_of. induction report as [|f report IH]; [reflexivity|].
  cbn [filter]. rewrite (H f) by now left.
  apply IH. intros g Hg. apply H. now right.
Qed.

(** Split a membership in a table that is written out into its entries. *)
Ltac entries H :=
  repeat (destruct H as [H|H]; [injection H as <- <-|]); try destruct H.

Lemma type_of_issue (file_path content name severity description fix_ : string)
  (m : rmatch_obj) :
  Issue.type_ (issue_of file_path content name severity description fix_ m)
  = name.
Proof. reflexivity. Qed.

Lemma suppressed (file_path content name : string) (rule : SecRule.t)
  (safe : regex) :
  In (name, rule) (security_patterns init) ->
  SecRule.safe_pattern rule = Some safe ->
  search safe content = true ->
  findings_of name (analyze_file init file_path content) = [].
Proof.
  intros Hin Hsafe Hfound. apply findings_of_nil. intros f Hf.
  apply analyze_file_collect, collect_inv in Hf.
  destruct Hf as (name' & r & sev & descr & fx & m & Happ & _ & ->).
  rewrite type_of_issue.
  cbn [security_patterns init the_security_patterns] in Hin.
  entries Hin; cbn [SecRule.safe_pattern] in Hsafe; try discriminate;
    injection Hsafe as <-.
  all: destruct Happ as [n rule Hr Hs | n rule Hr | fw rules n rule _ _ Hl Hr].
  (* a security or resource rule: its name differs, or it is suppressed too *)
  all: try (cbn [security_patterns resource_patterns init
                 the_security_patterns the_resource_patterns] in Hr;
            entries Hr; try reflexivity).
  all: try (cbn [SecRule.safe_pattern] in Hs;
            rewrite (Hs _ eq_refl) in Hfound; discriminate).
  (* a framework rule: none shares the name *)
  all: apply lookup_in in Hl;
       cbn [framework_patterns init the_framework_patterns] in Hl;
       entries Hl; cbn [react_patterns express_patterns] in Hr;
       entries Hr; reflexivity.
Qed.

Lemma environment_call_here (after : string) :
  rmatch environment_call ("os.getenv(" ++ after) Some = Some after.
Proof. reflexivity. Qed.

(** C1.  Suppression by a safe pattern is file-wide: when the safe pattern
    of a security rule is found anywhere in the content, the report of
    [analyze_file] holds no finding of that rule, wherever the matches of its
    primary pattern are; in particular a content in which [os.getenv(]
    occurs, before or after a hardcoded secret, yields no hardcoded-secret
    finding. *)
Theorem safe_pattern_suppresses_file_wide (file_path content : string) :
  (forall name rule safe,
      In (name, rule) (security_patterns init) ->
      SecRule.safe_pattern rule = Some safe ->
      search safe content = true ->
      findings_of name (analyze_file init file_path content) = [])
  /\ (forall before after,
         content = (before ++ "os.getenv(" ++ after)%string ->
         findings_of "hardcoded_secrets" (analyze_file init file_path content)
         = []).
Proof.
  split; [intros; eapply suppressed; eauto|].
  intros before after ->.
  eapply (suppressed _ _ _ _ environment_call); [now left | reflexivity |].
  apply (ReFacts.search_finds _ before _ after), environment_call_here.
Qed.

(** On [secret_then_getenv] the primary pattern matches at offset 0, the
    safe call comes on the next line, and nothing is reported. *)
Lemma suppression_witness :
  (exists rule,
      lookup "hardcoded_secrets" (security_patterns init) = Some rule
      /\ map m_start (finditer (SecRule.pattern rule) secret_then_getenv) = [0])
  /\ findings_of "hardcoded_secrets"
       (analyze_file init "app.py" secret_then_getenv) = [].
Proof.
  split.
  - eexists. split; [reflexivity|]. vm_compute. reflexivity.
  - apply (proj2 (safe_pattern_suppresses_file_wide "app.py" secret_then_getenv)
             ("password = " ++ quoted "x" ++ String nl "region = ")%string
             (quoted "X" ++ ")" ++ String nl "")%string).
    reflexivity.
Defined.

(** ** Matches are never empty *)

Lemma registry_never_matches_empty :
  forallb (fun r => negb (nullable r))
    (patterns_of init ++ Patterns.patterns_of Patterns.init) = true.
Proof. vm_compute. reflexivity. Qed.

Lemma applies_pattern (self : CodeAnalyzer) (framework : option string)
  (content name : string) (r : regex) (severity description fix_ : string) :
  applies self framework content name r severity description fix_ ->
  In r (patterns_of self).
Proof.
  unfold patterns_of. rewrite !in_app_iff.
  intros [n rule Hr _ | n rule Hr | fw rules n rule _ _ Hl Hr].
  - left. apply in_map_iff. now exists (n, rule).
  - right. left. apply in_map_iff. now exists (n, rule).
  - right. right. apply in_flat_map. exists (fw, rules).
    split; [now apply lookup_in|]. apply in_map_iff. now exists (n, rule).
Qed.

(** Every finding of the registry's rules quotes a non-empty piece of the
    content. *)
Lemma findings_quote_the_content (file_path content : string) (f : Issue.t) :
  In f (analyze_file init file_path content) ->
  exists m,
    located content m /\ m_start m < m_end m /\ Issue.proof f = m_group m.
Proof.
  intros Hf. apply analyze_file_collect, collect_inv in Hf.
  destruct Hf as (name & r & sev & descr & fx & m & Ha & Hm & ->).
  exists m. split; [now apply (ReFacts.finditer_located r)|].
  split; [|reflexivity].
  apply (ReFacts.finditer_not_empty r content); [|exact Hm].
  apply applies_pattern in Ha.
  pose proof registry_never_matches_empty as H.
  rewrite forallb_forall in H. apply negb_true_iff, H, in_app_iff. now left.
Qed.

(** ** The confidence score *)

(** C4.  The score is the base of the severity (Critical 0.95, High 0.85,
    Medium 0.75, Low 0.65, anything else 0.50), times 0.5 when the
    lower-cased file path contains [test], times 0.3 when the type is
    hardcoded-secret or SQL-injection and the proof text itself contains one
    of that type's safe sub-patterns; it lies between 0 and 0.95.  Every
    finding of [analyze_file] carries the score of its own type, severity and
    proof and of the path analyzed. *)
Theorem confidence_formula_and_range :
  (forall issue,
      _calculate_confidence issue = spec_confidence issue
      /\ PrimFloat.leb 0%float (_calculate_confidence issue) = true
      /\ PrimFloat.leb (_calculate_confidence issue) 0.95%float = true)
  /\ (forall self file_path content f,
         In f (analyze_file self file_path content) ->
         Issue.confidence f
         = spec_confidence
             (Probe.Make (Issue.type_ f) (Issue.severity f) (Issue.proof f)
                file_path)
         /\ PrimFloat.leb 0%float (Issue.confidence f) = true
         /\ PrimFloat.leb (Issue.confidence f) 0.95%float = true).
Proof.
  assert (H : forall issue,
             _calculate_confidence issue = spec_confidence issue
             /\ PrimFloat.leb 0%float (_calculate_confidence issue) = true
             /\ PrimFloat.leb (_calculate_confidence issue) 0.95%float = true).
  { intros issue. split; [apply ConfidenceFacts.spec_confidence_eq|].
    apply andb_true_iff. exact (ConfidenceFacts.confidence_within issue). }
  split; [exact H|].
  intros self file_path content f Hf.
  apply analyze_file_collect, collect_inv in Hf.
  destruct Hf as (name & r & sev & descr & fx & m & _ & _ & ->).
  apply H.
Qed.

(** The secret of [secret_on_line_3], found in [app.py]: Critical, no
    discount, 0.95. *)
Lemma confidence_formula_witness :
  Issue.confidence secret_finding
  = spec_confidence
      (Probe.Make (Issue.type_ secret_finding) (Issue.severity secret_finding)
         (Issue.proof secret_finding) "app.py")
  /\ PrimFloat.leb 0%float (Issue.confidence secret_finding) = true
  /\ PrimFloat.leb (Issue.confidence secret_finding) 0.95%float = true.
Proof.
  apply (proj2 confidence_formula_and_range init "app.py" secret_on_line_3).
  vm_compute. left. reflexivity.
Defined.

(** A credential read from the environment inside the quoted text, in a
    test file: 0.95 times 0.5 times 0.3. *)
Lemma confidence_discounts_example :
  map Issue.confidence
    (analyze_file init "tests/settings.py"
       ("token = " ++ quoted "os.getenv")%string)
  = [(0.95 * 0.5 * 0.3)%float].
Proof. vm_compute. reflexivity. Qed.

(** ** Line numbers *)

(** C3.  Line numbers are newline counts plus one, match by match.  The
    findings in discovery order are, one for one and in the same order, the
    matches of the patterns that run, each finding with the name of its
    rule, the matched text, and as its line the number of newlines of the
    content before the offset the match begins at, plus one; the report
    holds the same findings, sorted.  So for every rule that applies and
    every match of its pattern that begins at an offset with exactly [k]
    newlines before it, the report holds a finding of that rule quoting
    that match with line [k + 1], and the match lies in the content.
    [check_credentials], when the checker has a [hardcoded_secrets]
    pattern, returns one dictionary per match of it, in order, with the
    location [Line] followed by that same count plus one. *)
Theorem each_match_is_reported_on_its_line (self : CodeAnalyzer)
  (file_path content : string) :
  map place (collect self (_detect_framework content) file_path content)
  = flat_map (places content) (running self (_detect_framework content) content)
  /\ Permutation
       (map place (analyze_file self file_path content))
       (flat_map (places content)
          (running self (_detect_framework content) content))
  /\ (forall name r,
        In (name, r) (running self (_detect_framework content) content) <->
        exists severity description fix_,
          applies self (_detect_framework content) content name r
            severity description fix_)
  /\ (forall name r m k,
        In (name, r) (running self (_detect_framework content) content) ->
        In m (finditer r content) ->
        count_char nl (take (m_start m) content) = k ->
        located content m
        /\ exists f,
             In f (analyze_file self file_path content)
             /\ Issue.type_ f = name
             /\ Issue.proof f = m_group m
             /\ Issue.line f = k + 1)
  /\ (forall checker pattern,
        lookup "hardcoded_secrets" (Patterns.credential_patterns checker)
        = Some pattern ->
        exists issues,
          Patterns.check_credentials checker content = Returns issues
          /\ map credential_place issues
             = map (fun m =>
                      (Some ("Line "
                             ++ str_of_nat (line_at content (m_start m)))%string,
                       Some (m_group m)))
                 (finditer pattern content)).
Proof.
  pose proof (LineFacts.places_of_collect self (_detect_framework content)
                file_path content) as E.
  assert (P : Permutation
                (map place (analyze_file self file_path content))
                (flat_map (places content)
                   (running self (_detect_framework content) content))).
  { rewrite <- E. apply Permutation_map, SortFacts.sorted_perm. }
  split; [exact E|]. split; [exact P|].
  split; [intros name r; apply LineFacts.running_applies|]. split.
  - intros name r m k Hr Hm Hk.
    split; [now apply (ReFacts.finditer_located r)|].
    assert (H : In (name, k + 1, m_group m)
                  (map place (analyze_file self file_path content))).
    { apply (Permutation_in _ (Permutation_sym P)), in_flat_map.
      exists (name, r). split; [exact Hr|].
      unfold places, line_at. cbn [fst snd]. rewrite <- Hk.
      apply in_map_iff. now exists m. }
    apply in_map_iff in H. destruct H as (f & Hf & Hin).
    exists f. unfold place in Hf. injection Hf as H1 H2 H3. now repeat split.
  - intros checker pattern Hl. unfold Patterns.check_credentials, getitem.
    rewrite Hl. cbn [bind]. eexists. split; [reflexivity|].
    rewrite map_map. reflexivity.
Qed.

(** The content [a], [b], then the secret: the finding is on line 3. *)
Lemma line_example :
  analyze_file init "app.py" secret_on_line_3 = [secret_finding]
  /\ Issue.line secret_finding = 3.
Proof. vm_compute. split; reflexivity. Qed.

(** The same secret on lines 1 and 3: two findings with the same text, one
    on each line. *)
Lemma twice_example :
  map place (analyze_file init "app.py" secret_twice)
  = [ ("hardcoded_secrets", 1, secret_text);
      ("hardcoded_secrets", 3, secret_text) ].
Proof. vm_compute. reflexivity. Qed.

(** The second match of [secret_twice] begins at offset 17, after two
    newlines: it is reported on line 3, by both modules. *)
Lemma twice_witness :
  (located secret_twice (MkMatch 17 31 secret_text)
   /\ exists f,
        In f (analyze_file init "app.py" secret_twice)
        /\ Issue.type_ f = "hardcoded_secrets"
        /\ Issue.proof f = secret_text
        /\ Issue.line f = 2 + 1)
  /\ exists issues,
       Patterns.check_credentials Patterns.init secret_twice = Returns issues
       /\ map credential_place issues
          = [ (Some "Line 1", Some secret_text);
              (Some "Line 3", Some secret_text) ].
Proof.
  split.
  - apply (proj1 (proj2 (proj2 (proj2
             (each_match_is_reported_on_its_line init "app.py" secret_twice))))
             "hardcoded_secrets"
             (SecRule.pattern
                (get (security_patterns init) "hardcoded_secrets"
                   (SecRule.Make Eps None "" "" "")))
             (MkMatch 17 31 secret_text) 2).
    + vm_compute. left. reflexivity.
    + vm_compute. right. left. reflexivity.
    + vm_compute. reflexivity.
  - apply (proj2 (proj2 (proj2 (proj2
             (each_match_is_reported_on_its_line init "app.py" secret_twice))))
             Patterns.init Patterns.hardcoded_secrets_pattern).
    reflexivity.
Defined.

(** ** The order of the report *)

Lemma strongly_sorted_impl {A : Type} (R S : A -> A -> Prop) (P : A -> Prop)
  (l : list A) :
  (forall x y, P x -> P y -> R x y -> S x y) ->
  Forall P l -> StronglySorted R l -> StronglySorted S l.
Proof.
  intros H Pl Hs. induction Hs as [|x l Hs IH Hx]; [constructor|].
  inversion Pl as [|? ? Px Pl']; subst.
  constructor; [now apply IH|].
  rewrite Forall_forall in *. intros y Hy. apply H; auto.
Qed.

Lemma filter_ext_on {A : Type} (f g : A -> bool) (P : A -> Prop) (l : list A) :
  (forall x, P x -> f x = g x) -> Forall P l -> filter f l = filter g l.
Proof.
  intros H Pl. induction Pl as [|x l Px Pl IH]; [reflexivity|].
  cbn [filter]. now rewrite IH, (H x Px).
Qed.

Lemma severity_rank_cases (s : string) :
  get severity_rank s 4 =
    if String.eqb s "Critical" then 0 else if String.eqb s "High" then 1
    else if String.eqb s "Medium" then 2 else if String.eqb s "Low" then 3
    else 4.
Proof.
  unfold get, severity_rank. cbn [lookup].
  repeat match goal with |- context [String.eqb s ?k] =>
    destruct (String.eqb s k); [reflexivity|] end.
  reflexivity.
Qed.

(** C5.  The report of [analyze_file] is the list of findings in discovery
    order, rearranged so that severity ranks ascend (Critical 0, High 1,
    Medium 2, Low 3, anything else 4) and, within a rank, confidences
    descend; findings of equal rank and equal confidence keep their
    discovery order.  The sort turns the severities Medium, Critical, High,
    Critical with confidences 0.5, 0.9, 0.5, 0.95 into Critical 0.95,
    Critical 0.9, High 0.5, Medium 0.5. *)
Theorem report_is_stably_sorted (self : CodeAnalyzer)
  (file_path content : string) :
  Permutation (analyze_file self file_path content)
              (collect self (_detect_framework content) file_path content)
  /\ StronglySorted ranked_before (analyze_file self file_path content)
  /\ (forall x,
        In x (collect self (_detect_framework content) file_path content) ->
        filter (same_key x) (analyze_file self file_path content)
        = filter (same_key x)
            (collect self (_detect_framework content) file_path content))
  /\ (forall s,
        get severity_rank s 4 =
          if String.eqb s "Critical" then 0 else if String.eqb s "High" then 1
          else if String.eqb s "Medium" then 2
          else if String.eqb s "Low" then 3 else 4)
  /\ sort_issues sorting_example_in = sorting_example_out.
Proof.
  pose proof (collect_scored self (_detect_framework content) file_path content)
    as Hall.
  unfold analyze_file, analyze_with, sort_issues.
  split; [apply SortFacts.sorted_perm|].
  split.
  - apply (strongly_sorted_impl (may_precede issue_lt) _ scored).
    + apply OrderFacts.may_precede_ranked.
    + now apply SortFacts.sorted_all.
    + apply (SortFacts.sorted_sorted issue_lt scored); auto.
      * apply OrderFacts.issue_lt_asym.
      * apply OrderFacts.issue_not_lt_trans.
  - split; [|split; [apply severity_rank_cases | vm_compute; reflexivity]].
    intros x Hx.
    assert (Sx : scored x) by (rewrite Forall_forall in Hall; auto).
    rewrite <- (filter_ext_on (tied issue_lt x) (same_key x) scored).
    + rewrite <- (filter_ext_on (tied issue_lt x) (same_key x) scored _
                   (fun y Hy => OrderFacts.tied_same_key x y Sx Hy) Hall).
      apply (SortFacts.sorted_stable issue_lt scored); auto.
      apply OrderFacts.issue_not_lt_trans.
    + intros y Hy. now apply OrderFacts.tied_same_key.
    + now apply SortFacts.sorted_all.
Qed.

(** In [flask_test_module] the weak hash is found before the two leaks and
    stays first (Critical); the two leaks are tied and keep their order. *)
Lemma sorting_example :
  map Issue.type_
    (collect init (_detect_framework flask_test_module) "test_app.py"
       flask_test_module)
  = ["weak_crypto"; "file_leaks"; "memory_leaks"]
  /\ map Issue.type_ (analyze_file init "test_app.py" flask_test_module)
     = ["weak_crypto"; "file_leaks"; "memory_leaks"]
  /\ map Issue.confidence (analyze_file init "test_app.py" flask_test_module)
     = [(0.95 * 0.5)%float; (0.85 * 0.5)%float; (0.85 * 0.5)%float].
Proof. vm_compute. repeat split. Qed.

Lemma sorting_witness :
  filter (same_key leak_finding)
    (analyze_file init "test_app.py" flask_test_module)
  = filter (same_key leak_finding)
      (collect init (_detect_framework flask_test_module) "test_app.py"
         flask_test_module).
Proof.
  apply (proj1 (proj2 (proj2
           (report_is_stably_sorted init "test_app.py" flask_test_module)))).
  vm_compute. right. left. reflexivity.
Defined.

(** ** Determinism *)

(** C7.  [analyze_file] is deterministic and reads the analyzer only.  Run
    as the statements of the method on a store holding the analyzer and the
    list [issues], a call leaves the three pattern tables as it found them;
    what it returns is a function of the tables, the path and the content
    and does not depend on what [issues] held before, the method starting
    from the empty list; so a second call on the same path and content
    returns the same findings in the same order as the first.  After any
    sequence of calls on one store the tables are what they were, and each
    call of the sequence returns what a lone call on the first store does. *)
Theorem calls_repeat_and_leave_the_tables (s : Method.store)
  (file_path content : string) :
  Method.object (snd (Method.analyze_file file_path content s))
  = Method.object s
  /\ fst (Method.analyze_file file_path content s)
     = analyze_file (Method.object s) file_path content
  /\ Method.issues (snd (Method.analyze_file file_path content s))
     = collect (Method.object s) (_detect_framework content) file_path content
  /\ (forall before,
        fst (Method.analyze_file file_path content
               (Method.MkStore (Method.object s) before))
        = fst (Method.analyze_file file_path content s))
  /\ fst (Method.analyze_file file_path content
            (snd (Method.analyze_file file_path content s)))
     = fst (Method.analyze_file file_path content s)
  /\ (forall inputs,
        Method.object (snd (Method.calls inputs s)) = Method.object s
        /\ fst (Method.calls inputs s)
           = map (fun input =>
                    fst (Method.analyze_file (fst input) (snd input) s))
               inputs).
Proof.
  rewrite !MethodFacts.analyze_file_run. cbn [fst snd Method.object Method.issues].
  split; [reflexivity|]. split; [reflexivity|]. split; [reflexivity|].
  split.
  { intros before. now rewrite MethodFacts.analyze_file_run. }
  split; [reflexivity|].
  intros inputs. destruct (MethodFacts.calls_run inputs s) as [E1 E2].
  split; [exact E1|]. rewrite E2. apply map_ext.
  intros input. now rewrite MethodFacts.analyze_file_run.
Qed.

(** Two calls on [secret_on_line_3], on a store whose list still holds a
    finding: each returns the one finding, and the second does not add to
    the first. *)
Lemma calls_example :
  fst (Method.calls [("app.py", secret_on_line_3); ("app.py", secret_on_line_3)]
         (Method.MkStore init [leak_finding]))
  = [[secret_finding]; [secret_finding]].
Proof. vm_compute. reflexivity. Qed.

(** ** The framework detector *)

Lemma first_matching_some (table : list (string * regex)) (content fw : string) :
  first_matching table content = Some fw <->
  exists before pattern after,
    table = before ++ (fw, pattern) :: after
    /\ search pattern content = true
    /\ Forall (fun e => search (snd e) content = false) before.
Proof.
  induction table as [|[name p] table IH]; cbn [first_matching].
  - split; [discriminate|]. intros (before & ? & ? & H & _).
    now destruct before.
  - destruct (search p content) eqn:E.
    + split.
      * intros [= <-]. exists [], p, table. now repeat split.
      * intros ([|e before] & pattern & after & H & Hs & Hb);
          cbn [app] in H; injection H as H1 H2; subst.
        -- reflexivity.
        -- inversion Hb as [|? ? Hn]; subst. cbn [snd] in Hn. congruence.
    + rewrite IH. split.
      * intros (before & pattern & after & -> & Hs & Hb).
        exists ((name, p) :: before), pattern, after.
        repeat split; auto.
      * intros ([|e before] & pattern & after & H & Hs & Hb);
          cbn [app] in H; injection H as H1 H2; subst.
        -- congruence.
        -- inversion Hb; subst.
           exists before, pattern, after. now repeat split.
Qed.

Lemma first_matching_none (table : list (string * regex)) (content : string) :
  first_matching table content = None <->
  Forall (fun e => search (snd e) content = false) table.
Proof.
  induction table as [|[name p] table IH]; cbn [first_matching].
  - split; auto.
  - destruct (search p content) eqn:E.
    + split; [discriminate|]. intros H. inversion H; subst. cbn in *. congruence.
    + rewrite IH. split; [now constructor | now inversion 1].
Qed.

(** C8.  The framework detector is a function of the content alone.  Its
    signatures are tried in the order react, express, django, flask; it
    returns a framework exactly when that framework's signature is found and
    no earlier one is, and it returns [None] exactly when no signature is
    found. *)
Theorem detect_framework_first_signature (content : string) :
  keys frameworks = ["react"; "express"; "django"; "flask"]
  /\ (forall fw,
        _detect_framework content = Some fw <->
        exists before pattern after,
          frameworks = before ++ (fw, pattern) :: after
          /\ search pattern content = true
          /\ Forall (fun e => search (snd e) content = false) before)
  /\ (_detect_framework content = None <->
        Forall (fun e => search (snd e) content = false) frameworks).
Proof.
  split; [reflexivity|]. split.
  - intros fw. apply first_matching_some.
  - apply first_matching_none.
Qed.

(** [react_and_express] carries both signatures; react comes first. *)
Lemma detect_witness :
  map (fun e => search (snd e) react_and_express) frameworks
  = [true; true; false; false]
  /\ _detect_framework react_and_express = Some "react".
Proof.
  split; [vm_compute; reflexivity|].
  apply (proj1 (proj2 (detect_framework_first_signature react_and_express))).
  eexists [], _, _. split; [reflexivity|].
  split; [vm_compute; reflexivity | constructor].
Defined.

(** ** Frameworks without rules *)

(** C10.  Detecting django or flask adds no rule: the framework table
    has the keys react and express only, so on a content whose detected
    framework is django or flask [analyze_file] returns what it returns when
    no framework is detected. *)
Theorem django_and_flask_add_no_rules (file_path content : string) :
  _detect_framework content = Some "django"
  \/ _detect_framework content = Some "flask" ->
  keys (framework_patterns init) = ["react"; "express"]
  /\ analyze_file init file_path content
     = analyze_with init None file_path content.
Proof.
  intros H. split; [reflexivity|].
  unfold analyze_file. now destruct H as [-> | ->].
Qed.

Lemma django_witness :
  keys (framework_patterns init) = ["react"; "express"]
  /\ analyze_file init "views.py" django_view
     = analyze_with init None "views.py" django_view.
Proof.
  apply django_and_flask_add_no_rules. left. vm_compute. reflexivity.
Defined.

End AnalyzerProps.

(* ================================================================== *)
(** * Properties of [analyze_code] and its checkers *)

Module PatternsProps.
Import PyStr Re Py Confidence Samples Patterns.

(** ** The credential checker *)

(** C9.  [check_credentials] reports one finding per match of the
    hardcoded-secret pattern and never reads the [safe_patterns] entry: its
    result is the list of the matches' findings, any checker with the same
    [hardcoded_secrets] entry gives the same result whatever its other
    entries are, and a content in which the safe pattern is found still gets
    a finding for every match. *)
Theorem credentials_ignore_safe_patterns (code : string) :
  check_credentials init code
  = Returns (map (credential_issue code)
               (finditer hardcoded_secrets_pattern code))
  /\ (forall self,
        lookup "hardcoded_secrets" (credential_patterns self)
        = Some hardcoded_secrets_pattern ->
        check_credentials self code = check_credentials init code)
  /\ (search safe_patterns_pattern code = true ->
      exists issues,
        check_credentials init code = Returns issues
        /\ map (lookup "proof") issues
           = map (fun m => Some (m_group m))
               (finditer hardcoded_secrets_pattern code)).
Proof.
  split; [reflexivity|]. split.
  - intros self H. unfold check_credentials, getitem. now rewrite H.
  - intros _. eexists. split; [reflexivity|].
    rewrite map_map. reflexivity.
Qed.

(** The secret is reported although the next line calls [os.getenv]. *)
Lemma credentials_example :
  search safe_patterns_pattern secret_and_safe_call = true
  /\ check_credentials init secret_and_safe_call
     = Returns [credential_issue secret_and_safe_call
                  (MkMatch 0 22 ("password = " ++ quoted "secret123")%string)].
Proof. vm_compute. split; reflexivity. Qed.

Lemma credentials_witness :
  exists issues,
    check_credentials init secret_and_safe_call = Returns issues
    /\ map (lookup "proof") issues
       = map (fun m => Some (m_group m))
           (finditer hardcoded_secrets_pattern secret_and_safe_call).
Proof.
  apply (proj2 (proj2 (credentials_ignore_safe_patterns secret_and_safe_call))).
  vm_compute. reflexivity.
Defined.

(** ** The walk over a tree *)

Lemma size_children (n : ast) : size n = 1 + total (child_nodes n).
Proof.
  destruct n as [l v a|l [e|] body|c children]; cbn [size child_nodes total fold_right];
    lia.
Qed.

Lemma total_app (p q : list ast) : total (p ++ q) = total p + total q.
Proof.
  induction p as [|n p IH]; cbn [app total fold_right] in *; [reflexivity|].
  fold (total (p ++ q)). fold (total p). lia.
Qed.

Lemma walk_queue_length :
  forall fuel q, total q <= fuel -> length (walk_queue fuel q) = total q.
Proof.
  induction fuel as [|fuel IH]; intros q L.
  - destruct q as [|n q]; [reflexivity|].
    cbn [total fold_right] in L. rewrite size_children in L. lia.
  - destruct q as [|n q]; [reflexivity|].
    cbn [walk_queue length total fold_right] in *. fold (total q) in *.
    rewrite size_children in *.
    rewrite IH; rewrite total_app; lia.
Qed.

Lemma walk_visits_every_node (tree : ast) : length (walk tree) = size tree.
Proof.
  unfold walk. rewrite walk_queue_length; cbn [total fold_right]; lia.
Qed.

(** ** Findings without a score *)

Lemma map_unscored (make : rmatch_obj -> issue) (ms : list rmatch_obj) :
  (forall m, unscored (make m)) -> Forall unscored (map make ms).
Proof.
  intros H. apply Forall_forall. intros i Hi.
  apply in_map_iff in Hi. now destruct Hi as (m & <- & _).
Qed.

(** One [d[k]] of a checker: the key is there, or the call raises. *)
Ltac step_bind H :=
  unfold bind, getitem in H;
  match type of H with
  | context [lookup ?k ?d] =>
      destruct (lookup k d); cbv beta iota zeta in H; [|discriminate]
  end.

Lemma check_credentials_unscored (self : SecurityPatternChecker)
  (code : string) (issues : list issue) :
  check_credentials self code = Returns issues -> Forall unscored issues.
Proof.
  unfold check_credentials. intros H. step_bind H.
  injection H as <-. now apply map_unscored.
Qed.

Lemma check_injections_unscored (self : SecurityPatternChecker)
  (code : string) (issues : list issue) :
  check_injections self code = Returns issues -> Forall unscored issues.
Proof.
  unfold check_injections. intros H. do 2 step_bind H.
  injection H as <-. apply Forall_app. split; now apply map_unscored.
Qed.

Lemma check_resources_unscored (self : SecurityPatternChecker)
  (code : string) (issues : list issue) :
  check_resources self code = Returns issues -> Forall unscored issues.
Proof.
  unfold check_resources. intros H. do 2 step_bind H.
  injection H as <-. apply Forall_app. split; now apply map_unscored.
Qed.

Lemma null_pointers_unscored (tree : ast) :
  Forall unscored (null_pointers_of tree).
Proof.
  apply Forall_forall. intros i Hi. apply in_flat_map in Hi.
  destruct Hi as ([l v a|l t b|c cs] & _ & Hi); try destruct t;
    cbn [In] in Hi; try contradiction; now destruct Hi as [<-|[]].
Qed.

Lemma bare_excepts_unscored (tree : ast) :
  Forall unscored (bare_excepts_of tree).
Proof.
  apply Forall_forall. intros i Hi. apply in_flat_map in Hi.
  destruct Hi as ([l v a|l t b|c cs] & _ & Hi); try destruct t;
    cbn [In] in Hi; try contradiction; now destruct Hi as [<-|[]].
Qed.

Lemma analyze_code_unscored (ast_parse : string -> outcome ast)
  (code : string) (results : list (string * list issue)) (group : string)
  (issues : list issue) :
  analyze_code ast_parse code = Returns results ->
  In (group, issues) results -> Forall unscored issues.
Proof.
  unfold analyze_code, check_null_pointers, check_error_handling.
  destruct (check_credentials init code) as [cr|] eqn:E1; [|discriminate].
  destruct (check_injections init code) as [inj|] eqn:E2; [|discriminate].
  destruct (check_resources init code) as [res|] eqn:E3; [|discriminate].
  cbn [bind].
  destruct (ast_parse code) as [tree|]; [|discriminate]. cbn [bind].
  intros [= <-] Hin.
  apply check_credentials_unscored in E1.
  apply check_injections_unscored in E2.
  apply check_resources_unscored in E3.
  destruct Hin as [H|[H|[H|[]]]]; injection H as <- <-.
  - apply Forall_app; now split.
  - assumption.
  - apply Forall_app; split;
      [apply null_pointers_unscored | apply bare_excepts_unscored].
Qed.

Lemma values_within_one : forallb (within 1%float) conf_values = true.
Proof. vm_compute. reflexivity. Qed.

(** C6 as stated fails.  The structural finding for [a.b] has six keys,
    none of them [confidence]; the finding of the credential checker has no
    such key either. *)
Lemma structural_finding_has_no_confidence :
  null_pointers_of attribute_access = [null_pointer_issue 1]
  /\ check_null_pointers (fun _ => Returns attribute_access) "a.b"
     = Returns [null_pointer_issue 1]
  /\ lookup "confidence" (null_pointer_issue 1) = None
  /\ keys (null_pointer_issue 1)
     = ["severity"; "category"; "type"; "location"; "description"; "fix"]
  /\ exists i, check_credentials init secret_on_line_3 = Returns [i]
               /\ lookup "confidence" i = None.
Proof.
  repeat split; try (vm_compute; reflexivity).
  eexists. split; vm_compute; reflexivity.
Qed.

(** C6, amended.  Every finding of [analyze_file] carries a confidence,
    a float between 0 and 1; the findings of [analyze_code], those of the
    structural checker included, are not scored: they have no confidence
    key. *)
Theorem confidence_only_in_analyze_file :
  (forall self file_path content f,
      In f (Analyzer.analyze_file self file_path content) ->
      PrimFloat.leb 0%float (Analyzer.Issue.confidence f) = true
      /\ PrimFloat.leb (Analyzer.Issue.confidence f) 1%float = true)
  /\ (forall ast_parse code results group issues i,
         analyze_code ast_parse code = Returns results ->
         In (group, issues) results -> In i issues ->
         lookup "confidence" i = None).
Proof.
  split.
  - intros self file_path content f Hf.
    apply ProvenanceFacts.analyze_file_collect in Hf.
    pose proof (ProvenanceFacts.collect_scored self
                  (Analyzer._detect_framework content) file_path content) as Hall.
    rewrite Forall_forall in Hall. specialize (Hall f Hf).
    pose proof values_within_one as H. rewrite forallb_forall in H.
    apply andb_true_iff. exact (H _ Hall).
  - intros ast_parse code results group issues i Hr Hg Hi.
    pose proof (analyze_code_unscored ast_parse code results group issues Hr Hg)
      as Hall.
    rewrite Forall_forall in Hall. now apply Hall.
Qed.

Lemma confidence_witness :
  PrimFloat.leb 0%float (Analyzer.Issue.confidence secret_finding) = true
  /\ PrimFloat.leb (Analyzer.Issue.confidence secret_finding) 1%float = true.
Proof.
  apply (proj1 confidence_only_in_analyze_file Analyzer.init "app.py"
           secret_on_line_3).
  vm_compute. left. reflexivity.
Defined.

(** ** A text that does not parse *)

(** C2, as the code behaves.  When [ast.parse] raises on a text,
    [analyze_code] raises the same exception: the findings of the regular
    expressions, which were computed, are lost with it. *)
Theorem analyze_code_raises_when_parse_fails
  (ast_parse : string -> outcome ast) (code : string) (e : exn) :
  ast_parse code = Raises e ->
  analyze_code ast_parse code = Raises e
  /\ exists found, regex_issues init code = Returns found.
Proof.
  intros H. split.
  - unfold analyze_code, check_null_pointers.
    change (check_credentials init code) with
      (Returns (map (credential_issue code)
                  (finditer hardcoded_secrets_pattern code))).
    cbn [bind]. unfold check_injections, check_resources, getitem.
    cbn [lookup injection_patterns resource_patterns init
         the_injection_patterns the_resource_patterns String.eqb Ascii.eqb
         Bool.eqb bind].
    now rewrite H.
  - eexists. reflexivity.
Qed.

(** The example text at the end of the module is indented, so it does not
    parse: the call raises, although three of its lines match a pattern. *)
Lemma test_code_findings :
  exists secret leak loop,
    regex_issues init test_code = Returns ([secret], [leak; loop])
    /\ lookup "location" secret = Some "Line 2"
    /\ lookup "location" leak = Some "Line 6"
    /\ lookup "location" loop = Some "Line 7".
Proof. eexists _, _, _. vm_compute. repeat split. Qed.

Lemma test_code_raises :
  analyze_code reject_indented test_code = Raises SyntaxError
  /\ exists found, regex_issues init test_code = Returns found.
Proof.
  apply analyze_code_raises_when_parse_fails. vm_compute. reflexivity.
Defined.

End PatternsProps.

(* ================================================================== *)
(** * More properties of [code_analyzer.py] *)

Module AnalyzerMore.
Import PyStr Re Py Analyzer Confidence Order Provenance Samples Census.
Import ProvenanceFacts.
Local Open Scope string_scope.
Local Open Scope list_scope.
Local Open Scope nat_scope.

(** ** Findings and the content *)

Lemma count_char_take (c : ascii) (n : nat) (s : string) :
  count_char c (take n s) <= count_char c s.
Proof.
  revert s. induction n as [|n IH]; intros [|d s]; cbn [take count_char]; try lia.
  specialize (IH s). lia.
Qed.

Lemma located_length (content : string) (m : rmatch_obj) :
  located content m ->
  String.length (m_group m) = m_end m - m_start m.
Proof.
  intros (L1 & L2 & ->). apply ReFacts.length_take.
  rewrite ReFacts.length_drop. lia.
Qed.

(** X1.  Every finding of [analyze_file] lies in the content: its line is
    between 1 and the number of newlines of the content plus one, its proof
    is a non-empty text that the content holds at some offset, and its line
    is the line of that offset. *)
Theorem findings_lie_in_the_content (file_path content : string) (f : Issue.t) :
  In f (analyze_file init file_path content) ->
  1 <= Issue.line f <= count_char nl content + 1
  /\ 0 < String.length (Issue.proof f)
  /\ exists start,
       start + String.length (Issue.proof f) <= String.length content
       /\ Issue.proof f
          = take (String.length (Issue.proof f)) (drop start content)
       /\ Issue.line f = count_char nl (take start content) + 1.
Proof.
  intros Hf. apply analyze_file_collect, collect_inv in Hf.
  destruct Hf as (name & r & sev & descr & fx & m & Ha & Hm & ->).
  pose proof (ReFacts.finditer_located r content m Hm) as Hl.
  pose proof (located_length content m Hl) as Hlen.
  assert (Hne : m_start m < m_end m).
  { apply (ReFacts.finditer_not_empty r content); [|exact Hm].
    apply AnalyzerProps.applies_pattern in Ha.
    pose proof AnalyzerProps.registry_never_matches_empty as H.
    rewrite forallb_forall in H. apply negb_true_iff, H, in_app_iff. now left. }
  destruct Hl as (L1 & L2 & Hg).
  cbn [issue_of Issue.line Issue.proof]. unfold count_upto.
  pose proof (count_char_take nl (m_start m) content).
  split; [lia|]. split; [lia|].
  exists (m_start m). rewrite Hlen. split; [lia|]. split; [exact Hg|reflexivity].
Qed.

Lemma no_member_nil {A : Type} (l : list A) : (forall x, ~ In x l) -> l = [].
Proof. destruct l as [|x l]; [reflexivity|]. intros H. destruct (H x). now left. Qed.

Lemma finditer_empty_text (r : regex) :
  nullable r = false -> finditer r "" = [].
Proof.
  intros N. apply no_member_nil. intros m Hm.
  pose proof (ReFacts.finditer_located r "" m Hm) as (L1 & L2 & _).
  pose proof (ReFacts.finditer_not_empty r "" m N Hm). cbn in L2. lia.
Qed.

Lemma findings_lie_witness :
  1 <= Issue.line secret_finding <= count_char nl secret_on_line_3 + 1
  /\ 0 < String.length (Issue.proof secret_finding)
  /\ exists start,
       start + String.length (Issue.proof secret_finding)
       <= String.length secret_on_line_3
       /\ Issue.proof secret_finding
          = take (String.length (Issue.proof secret_finding))
              (drop start secret_on_line_3)
       /\ Issue.line secret_finding
          = count_char nl (take start secret_on_line_3) + 1.
Proof.
  apply (findings_lie_in_the_content "app.py"). vm_compute. left. reflexivity.
Defined.

(** X2.  An empty content gives an empty report, whatever the path, for
    every analyzer none of whose patterns can match the empty text; the
    analyzer of [__init__] is one. *)
Theorem empty_content_empty_report (self : CodeAnalyzer) (file_path : string) :
  forallb (fun r => negb (nullable r)) (patterns_of self) = true ->
  analyze_file self file_path "" = [].
Proof.
  intros H. rewrite forallb_forall in H.
  apply no_member_nil. intros f Hf.
  apply analyze_file_collect, collect_inv in Hf.
  destruct Hf as (name & r & sev & descr & fx & m & Ha & Hm & _).
  apply AnalyzerProps.applies_pattern in Ha.
  rewrite finditer_empty_text in Hm; [destruct Hm|].
  apply negb_true_iff. now apply H.
Qed.

Lemma empty_content_witness : analyze_file init "app.py" "" = [].
Proof. apply empty_content_empty_report. vm_compute. reflexivity. Defined.

(** ** One finding per match *)

Lemma permutation_filter {A : Type} (keep : A -> bool) (xs ys : list A)
  (H : Permutation xs ys) :
  Permutation (filter keep xs) (filter keep ys).
Proof.
  set (f := keep).
  induction H as [|x l l' _ IH|x y l|l l' l'' _ IH1 _ IH2]; cbn [filter].
  - constructor.
  - destruct (f x); [now constructor | exact IH].
  - destruct (f x), (f y); try reflexivity. apply perm_swap.
  - now transitivity (filter f l').
Qed.

Lemma findings_of_app (name : string) (l l' : list Issue.t) :
  findings_of name (l ++ l') = findings_of name l ++ findings_of name l'.
Proof. apply filter_app. Qed.

Lemma findings_of_scan_rule (file_path content name n : string) (rule : Rule.t) :
  findings_of name (scan_rule file_path content (n, rule))
  = if String.eqb n name then scan_rule file_path content (n, rule) else [].
Proof.
  unfold scan_rule, findings_of.
  induction (finditer (Rule.pattern rule) content) as [|m ms IH];
    cbn [map filter issue_of Issue.type_].
  - now destruct (String.eqb n name).
  - rewrite IH. now destruct (String.eqb n name).
Qed.

Lemma findings_of_scan_security (file_path content name n : string)
  (rule : SecRule.t) :
  findings_of name (scan_security file_path content (n, rule))
  = if String.eqb n name then scan_security file_path content (n, rule) else [].
Proof.
  unfold scan_security, findings_of.
  destruct (safe_pattern_found rule content).
  - induction (finditer (SecRule.pattern rule) content) as [|m ms IH];
      cbn [flat_map filter app]; [now destruct (String.eqb n name)|exact IH].
  - induction (finditer (SecRule.pattern rule) content) as [|m ms IH];
      cbn [flat_map filter app issue_of Issue.type_].
    + now destruct (String.eqb n name).
    + rewrite IH. now destruct (String.eqb n name).
Qed.

(** In a table whose keys differ from one another, the findings of a name
    are those of the entry under that name. *)
Lemma findings_of_rules (file_path content name : string)
  (table : list (string * Rule.t)) :
  NoDup (keys table) ->
  findings_of name (flat_map (scan_rule file_path content) table)
  = match lookup name table with
    | Some rule => scan_rule file_path content (name, rule)
    | None => []
    end.
Proof.
  induction table as [|[n rule] table IH]; cbn [keys map fst flat_map lookup];
    [reflexivity|].
  intros Hnd. inversion Hnd as [|? ? Hn Hnd']; subst.
  rewrite findings_of_app, findings_of_scan_rule, (IH Hnd').
  rewrite (String.eqb_sym name n).
  destruct (String.eqb_spec n name) as [->|_]; [|reflexivity].
  destruct (lookup name table) as [rule'|] eqn:L; [|apply app_nil_r].
  apply lookup_in in L. exfalso. apply Hn.
  change name with (fst (name, rule')). now apply in_map.
Qed.

Lemma findings_of_securities (file_path content name : string)
  (table : list (string * SecRule.t)) :
  NoDup (keys table) ->
  findings_of name (flat_map (scan_security file_path content) table)
  = match lookup name table with
    | Some rule => scan_security file_path content (name, rule)
    | None => []
    end.
Proof.
  induction table as [|[n rule] table IH]; cbn [keys map fst flat_map lookup];
    [reflexivity|].
  intros Hnd. inversion Hnd as [|? ? Hn Hnd']; subst.
  rewrite findings_of_app, findings_of_scan_security, (IH Hnd').
  rewrite (String.eqb_sym name n).
  destruct (String.eqb_spec n name) as [->|_]; [|reflexivity].
  destruct (lookup name table) as [rule'|] eqn:L; [|apply app_nil_r].
  apply lookup_in in L. exfalso. apply Hn.
  change name with (fst (name, rule')). now apply in_map.
Qed.

Lemma in_lookup {V : Type} (k : string) (v : V) (d : list (string * V)) :
  NoDup (keys d) -> In (k, v) d -> lookup k d = Some v.
Proof.
  induction d as [|[k' v'] d IH]; cbn [keys map fst lookup In]; [tauto|].
  intros Hnd [H|H]; inversion Hnd as [|? ? Hn Hnd']; subst.
  - injection H as -> ->. now rewrite String.eqb_refl.
  - destruct (String.eqb_spec k k') as [->|_]; [|now apply IH].
    exfalso. apply Hn. change k' with (fst (k', v)). now apply in_map.
Qed.

Lemma nodupb_NoDup (l : list string) : nodupb l = true -> NoDup l.
Proof.
  induction l as [|x l IH]; cbn [nodupb]; [constructor|].
  intros H. apply andb_true_iff in H. destruct H as [H1 H2].
  constructor; [|now apply IH].
  intros Hin. apply negb_true_iff in H1.
  assert (existsb (String.eqb x) l = true)
    by (apply existsb_exists; exists x; split; [exact Hin|apply String.eqb_refl]).
  congruence.
Qed.

Lemma init_names_differ : names_differ init.
Proof. apply nodupb_NoDup. vm_compute. reflexivity. Qed.

Lemma rules_absent (file_path content name : string)
  (table : list (string * Rule.t)) :
  ~ In name (keys table) ->
  findings_of name (flat_map (scan_rule file_path content) table) = [].
Proof.
  induction table as [|[n rule] table IH]; cbn [keys map fst flat_map In];
    [reflexivity|].
  intros H. rewrite findings_of_app, findings_of_scan_rule.
  destruct (String.eqb_spec n name) as [->|_]; [tauto|].
  apply IH. tauto.
Qed.

Lemma securities_absent (file_path content name : string)
  (table : list (string * SecRule.t)) :
  ~ In name (keys table) ->
  findings_of name (flat_map (scan_security file_path content) table) = [].
Proof.
  induction table as [|[n rule] table IH]; cbn [keys map fst flat_map In];
    [reflexivity|].
  intros H. rewrite findings_of_app, findings_of_scan_security.
  destruct (String.eqb_spec n name) as [->|_]; [tauto|].
  apply IH. tauto.
Qed.

Lemma nodup_app_left {A : Type} (l l' : list A) (x : A) :
  NoDup (l ++ l') -> In x l -> ~ In x l'.
Proof.
  induction l as [|y l IH]; cbn [app In]; [tauto|].
  intros Hnd [->|Hx] Hx'; inversion Hnd as [|? ? Hn Hnd']; subst.
  - apply Hn, in_or_app. now right.
  - now apply (IH Hnd' Hx).
Qed.

Lemma nodup_flat_map_part {A B : Type} (g : A -> list B) (L : list A) (t : A) :
  NoDup (flat_map g L) -> In t L -> NoDup (g t).
Proof.
  induction L as [|u L IH]; cbn [flat_map In]; [tauto|].
  intros Hnd [->|Ht].
  - now apply NoDup_app_remove_r in Hnd.
  - apply IH; [|exact Ht]. now apply NoDup_app_remove_l in Hnd.
Qed.

Lemma key_in {V : Type} (k : string) (v : V) (d : list (string * V)) :
  In (k, v) d -> In k (keys d).
Proof. intros H. change k with (fst (k, v)). now apply in_map. Qed.

Lemma framework_absent (self : CodeAnalyzer) (framework : option string)
  (file_path content name : string) :
  ~ In name (flat_map (fun t => keys (snd t)) (framework_patterns self)) ->
  findings_of name (scan_framework self framework file_path content) = [].
Proof.
  intros H. unfold scan_framework.
  destruct framework as [fw|]; [|reflexivity].
  destruct (String.eqb fw ""); [reflexivity|].
  destruct (lookup fw (framework_patterns self)) as [rules|] eqn:L;
    [|reflexivity].
  apply rules_absent. intros Hin. apply H, in_flat_map.
  exists (fw, rules). split; [now apply lookup_in | exact Hin].
Qed.

(** The findings of a rule name in the list collected, when names differ. *)
Lemma collected_of_rule (self : CodeAnalyzer) (framework : option string)
  (file_path content name : string) :
  names_differ self ->
  (forall rule,
      In (name, rule) (security_patterns self) ->
      findings_of name (collect self framework file_path content)
      = scan_security file_path content (name, rule))
  /\ (forall rule,
         In (name, rule) (resource_patterns self) ->
         findings_of name (collect self framework file_path content)
         = scan_rule file_path content (name, rule))
  /\ (forall fw rules rule,
         framework = Some fw -> fw <> "" ->
         lookup fw (framework_patterns self) = Some rules ->
         In (name, rule) rules ->
         findings_of name (collect self framework file_path content)
         = scan_rule file_path content (name, rule)).
Proof.
  unfold names_differ, collect. intros Hnd.
  pose proof (NoDup_app_remove_r _ _ Hnd) as Hs.
  pose proof (NoDup_app_remove_l _ _ Hnd) as Hrf.
  pose proof (NoDup_app_remove_r _ _ Hrf) as Hr.
  pose proof (NoDup_app_remove_l _ _ Hrf) as Hf.
  rewrite !findings_of_app. repeat split.
  - intros rule Hin. pose proof (key_in _ _ _ Hin) as Hk.
    pose proof (nodup_app_left _ _ _ Hnd Hk) as Hout.
    rewrite (findings_of_securities _ _ _ _ Hs), (in_lookup _ _ _ Hs Hin).
    rewrite rules_absent, framework_absent.
    + now rewrite !app_nil_r.
    + intros H. apply Hout, in_or_app. now right.
    + intros H. apply Hout, in_or_app. now left.
  - intros rule Hin. pose proof (key_in _ _ _ Hin) as Hk.
    rewrite securities_absent.
    + rewrite (findings_of_rules _ _ _ _ Hr), (in_lookup _ _ _ Hr Hin).
      rewrite framework_absent; [now rewrite app_nil_r|].
      now apply (nodup_app_left _ _ _ Hrf).
    + intros H. apply (nodup_app_left _ _ _ Hnd H), in_or_app. now left.
  - intros fw rules rule -> Hne Hl Hin.
    pose proof (lookup_in _ _ _ Hl) as Ht.
    assert (Hk : In name (flat_map (fun t => keys (snd t))
                            (framework_patterns self))).
    { apply in_flat_map. exists (fw, rules). split; [exact Ht|].
      now apply (key_in _ rule). }
    rewrite securities_absent, rules_absent.
    + cbn [app]. unfold scan_framework.
      destruct (String.eqb_spec fw "") as [|_]; [contradiction|].
      rewrite Hl, (findings_of_rules _ _ _ _ (nodup_flat_map_part _ _ _ Hf Ht)).
      now rewrite (in_lookup _ _ _ (nodup_flat_map_part _ _ _ Hf Ht) Hin).
    + intros H. now apply (nodup_app_left _ _ _ Hrf H).
    + intros H. apply (nodup_app_left _ _ _ Hnd H), in_or_app. now right.
Qed.

(** X3.  When rule names differ, as they do in the analyzer of
    [__init__], the report holds exactly one finding per match of a rule
    that runs, with that rule's severity, description and fix: always for a
    resource rule, for a security rule when its safe pattern is not found in
    the content, for a framework rule when its framework is the one
    detected.  Repeated matches are not merged and none is left out. *)
Theorem one_finding_per_match (self : CodeAnalyzer)
  (file_path content name : string) :
  names_differ self ->
  (forall rule,
      In (name, rule) (resource_patterns self) ->
      Permutation
        (findings_of name (analyze_file self file_path content))
        (map (issue_of file_path content name (Rule.severity rule)
                (Rule.description rule) (Rule.fix_ rule))
           (finditer (Rule.pattern rule) content)))
  /\ (forall rule,
         In (name, rule) (security_patterns self) ->
         safe_pattern_found rule content = false ->
         Permutation
           (findings_of name (analyze_file self file_path content))
           (map (issue_of file_path content name (SecRule.severity rule)
                   (SecRule.description rule) (SecRule.fix_ rule))
              (finditer (SecRule.pattern rule) content)))
  /\ (forall fw rules rule,
         _detect_framework content = Some fw ->
         lookup fw (framework_patterns self) = Some rules ->
         In (name, rule) rules ->
         Permutation
           (findings_of name (analyze_file self file_path content))
           (map (issue_of file_path content name (Rule.severity rule)
                   (Rule.description rule) (Rule.fix_ rule))
              (finditer (Rule.pattern rule) content))).
Proof.
  intros Hnd.
  destruct (collected_of_rule self (_detect_framework content) file_path
              content name Hnd) as (Hs & Hr & Hf).
  assert (P : Permutation
                (findings_of name (analyze_file self file_path content))
                (findings_of name
                   (collect self (_detect_framework content) file_path content))).
  { apply permutation_filter, SortFacts.sorted_perm. }
  repeat split.
  - intros rule Hin. rewrite P, (Hr rule Hin). reflexivity.
  - intros rule Hin Hsafe. rewrite P, (Hs rule Hin).
    unfold scan_security. rewrite Hsafe.
    induction (finditer (SecRule.pattern rule) content) as [|m ms IH];
      cbn [flat_map map app]; [constructor | now constructor].
  - intros fw rules rule Hd Hl Hin. rewrite P.
    rewrite (Hf fw rules rule Hd); [reflexivity | | exact Hl | exact Hin].
    intros ->. revert Hd. unfold _detect_framework.
    rewrite AnalyzerProps.first_matching_some.
    intros (before & pat & after & E & _).
    assert (K : In "" (keys frameworks)).
    { rewrite E. unfold keys. rewrite map_app. apply in_or_app. right. now left. }
    cbn in K. intuition discriminate.
Qed.

(** The two leaks of [flask_test_module]: one finding per match. *)
Lemma one_finding_witness :
  exists rule,
    lookup "memory_leaks" (resource_patterns init) = Some rule
    /\ Permutation
         (findings_of "memory_leaks"
            (analyze_file init "test_app.py" flask_test_module))
         (map (issue_of "test_app.py" flask_test_module "memory_leaks"
                 (Rule.severity rule) (Rule.description rule) (Rule.fix_ rule))
            (finditer (Rule.pattern rule) flask_test_module)).
Proof.
  eexists. split; [reflexivity|].
  apply (proj1 (one_finding_per_match init "test_app.py" flask_test_module
                  "memory_leaks" init_names_differ)).
  right. left. reflexivity.
Defined.

(** ** Findings and their rules *)

(** Split a membership in a table that is written out into its entries. *)
Ltac entries H :=
  repeat (destruct H as [H|H]; [injection H as <- <-|]); try destruct H.

(** X4.  A finding of [analyze_file] carries the severity, description and
    fix that the tables give the rule named by its type; its severity is
    Critical, High or Medium; and a finding of a react rule (an express
    rule) occurs only when react (express) is the framework detected. *)
Theorem findings_carry_their_rule (file_path content : string) (f : Issue.t) :
  In f (analyze_file init file_path content) ->
  lookup (Issue.type_ f) (registry init)
  = Some (Issue.severity f, Issue.description f, Issue.fix_ f)
  /\ rank f <= 2
  /\ (In (Issue.type_ f) (keys react_patterns) ->
      _detect_framework content = Some "react")
  /\ (In (Issue.type_ f) (keys express_patterns) ->
      _detect_framework content = Some "express").
Proof.
  intros Hf. apply analyze_file_collect, collect_inv in Hf.
  destruct Hf as (name & r & sev & descr & fx & m & Ha & _ & ->).
  cbn [issue_of Issue.type_ Issue.severity Issue.description Issue.fix_].
  unfold rank. cbn [issue_of Issue.severity].
  destruct Ha as [n rule Hr _ | n rule Hr | fw rules n rule Hd _ Hl Hr].
  - cbn [security_patterns init the_security_patterns] in Hr.
    entries Hr; (split; [reflexivity|]); (split; [cbn; lia|]);
      split; intros K; cbn in K; intuition discriminate.
  - cbn [resource_patterns init the_resource_patterns] in Hr.
    entries Hr; (split; [reflexivity|]); (split; [cbn; lia|]);
      split; intros K; cbn in K; intuition discriminate.
  - apply lookup_in in Hl.
    cbn [framework_patterns init the_framework_patterns] in Hl.
    entries Hl; cbn [react_patterns express_patterns] in Hr; entries Hr;
      (split; [reflexivity|]); (split; [cbn; lia|]);
      split; intros K; try exact Hd; cbn in K; intuition discriminate.
Qed.

Lemma findings_rule_witness :
  lookup (Issue.type_ secret_finding) (registry init)
  = Some (Issue.severity secret_finding, Issue.description secret_finding,
          Issue.fix_ secret_finding)
  /\ rank secret_finding <= 2
  /\ (In (Issue.type_ secret_finding) (keys react_patterns) ->
      _detect_framework secret_on_line_3 = Some "react")
  /\ (In (Issue.type_ secret_finding) (keys express_patterns) ->
      _detect_framework secret_on_line_3 = Some "express").
Proof.
  apply (findings_carry_their_rule "app.py"). vm_compute. left. reflexivity.
Defined.

(** ** Test paths *)

Lemma half_of_discount (b : float) :
  In b bases -> (b * 0.5 * 0.3)%float = (b * 0.3 * 0.5)%float.
Proof.
  unfold bases. cbn [In].
  intros H; repeat (destruct H as [<-|H]; [reflexivity|]); destruct H.
Qed.

Lemma confidence_halved (type_ severity proof plain test : string) :
  is_test_path plain = false -> is_test_path test = true ->
  _calculate_confidence (Probe.Make type_ severity proof test)
  = (_calculate_confidence (Probe.Make type_ severity proof plain) * 0.5)%float
  /\ In (_calculate_confidence (Probe.Make type_ severity proof plain))
        plain_values.
Proof.
  unfold is_test_path, _calculate_confidence, _has_safe_pattern.
  cbn [Probe.file Probe.severity Probe.type_ Probe.proof].
  intros -> ->.
  destruct (ConfidenceFacts.base_cases severity) as [Hb _].
  rewrite (ConfidenceFacts.one_times_base _ Hb).
  set (b := get severity_confidence severity 0.5%float) in *. clearbody b.
  destruct (existsb _ _).
  - split; [now apply half_of_discount|].
    unfold plain_values. apply in_flat_map. exists b. cbn [In]. auto.
  - split; [reflexivity|].
    unfold plain_values. apply in_flat_map. exists b. cbn [In]. auto.
Qed.

Lemma halving_keeps_order :
  forallb (fun a => forallb (fun b =>
     Bool.eqb (neg_lt (a * 0.5) (b * 0.5)) (neg_lt a b)) plain_values)
    plain_values = true.
Proof. vm_compute. reflexivity. Qed.

Lemma halve_lt (x y : Issue.t) :
  In (Issue.confidence x) plain_values -> In (Issue.confidence y) plain_values ->
  issue_lt (halve x) (halve y) = issue_lt x y.
Proof.
  intros Hx Hy. rewrite !OrderFacts.issue_lt_unfold. unfold rank, halve.
  cbn [Issue.severity Issue.confidence].
  destruct (_ =? _); [|reflexivity].
  pose proof halving_keeps_order as H. rewrite forallb_forall in H.
  specialize (H _ Hx). rewrite forallb_forall in H.
  now apply Bool.eqb_prop, H.
Qed.

Section MapSorted.
Context {A : Type} (lt : A -> A -> bool) (h : A -> A) (P : A -> Prop).
Hypothesis compat : forall x y, P x -> P y -> lt (h x) (h y) = lt x y.

Lemma insert_map (x : A) (l : list A) :
  P x -> Forall P l -> insert lt (h x) (map h l) = map h (insert lt x l).
Proof.
  intros Px Pl. induction Pl as [|y l Py Pl IH]; [reflexivity|].
  cbn [map insert]. rewrite (compat y x Py Px).
  destruct (lt y x); [|reflexivity]. cbn [map]. now rewrite IH.
Qed.

Lemma sorted_map (l : list A) :
  Forall P l -> sorted lt (map h l) = map h (sorted lt l).
Proof.
  intros Pl. induction Pl as [|x l Px Pl IH]; [reflexivity|].
  cbn [map sorted]. rewrite IH. apply insert_map; [exact Px|].
  rewrite Forall_forall in *. intros y Hy. apply Pl.
  now apply (SortFacts.sorted_in lt).
Qed.

End MapSorted.

Lemma flat_map_map {A B C : Type} (g : A -> list B) (h : B -> C) (l : list A) :
  flat_map (fun a => map h (g a)) l = map h (flat_map g l).
Proof.
  induction l as [|a l IH]; [reflexivity|].
  cbn [flat_map]. now rewrite map_app, IH.
Qed.

Lemma issue_of_test_path (plain test content name sev descr fx : string)
  (m : rmatch_obj) :
  is_test_path plain = false -> is_test_path test = true ->
  issue_of test content name sev descr fx m
  = halve (issue_of plain content name sev descr fx m).
Proof.
  intros H1 H2. unfold issue_of, halve.
  cbn [Issue.type_ Issue.severity Issue.description Issue.line Issue.proof
       Issue.fix_ Issue.confidence].
  now rewrite (proj1 (confidence_halved name sev (m_group m) plain test H1 H2)).
Qed.

(** X5.  For the same type, severity and proof, a path that contains
    [test] (in any case) gives exactly half the confidence of a path that
    does not. *)
Theorem test_path_halves_confidence (type_ severity proof plain test : string) :
  is_test_path plain = false -> is_test_path test = true ->
  _calculate_confidence (Probe.Make type_ severity proof test)
  = (_calculate_confidence (Probe.Make type_ severity proof plain) * 0.5)%float.
Proof. intros H1 H2. now apply confidence_halved. Qed.

Lemma collect_test_path (self : CodeAnalyzer) (framework : option string)
  (plain test content : string) :
  is_test_path plain = false -> is_test_path test = true ->
  collect self framework test content
  = map halve (collect self framework plain content)
  /\ Forall plain_scored (collect self framework plain content).
Proof.
  intros H1 H2. split.
  - unfold collect. rewrite !map_app.
    assert (R : forall e, scan_rule test content e
                          = map halve (scan_rule plain content e)).
    { intros [n rule]. unfold scan_rule. rewrite map_map.
      apply map_ext. intros m. now apply issue_of_test_path. }
    assert (S : forall e, scan_security test content e
                          = map halve (scan_security plain content e)).
    { intros [n rule]. unfold scan_security.
      rewrite <- flat_map_map. apply flat_map_ext. intros m.
      destruct (safe_pattern_found rule content); [reflexivity|].
      cbn [map]. f_equal. now apply issue_of_test_path. }
    f_equal; [|f_equal].
    + rewrite <- flat_map_map. now apply flat_map_ext.
    + rewrite <- flat_map_map. now apply flat_map_ext.
    + unfold scan_framework. destruct framework as [fw|]; [|reflexivity].
      destruct (String.eqb fw ""); [reflexivity|].
      destruct (lookup fw (framework_patterns self)); [|reflexivity].
      rewrite <- flat_map_map. now apply flat_map_ext.
  - apply Forall_forall. intros f Hf. apply collect_inv in Hf.
    destruct Hf as (name & r & sev & descr & fx & m & _ & _ & ->).
    unfold plain_scored. cbn [issue_of Issue.confidence].
    exact (proj2 (confidence_halved name sev (m_group m) plain test H1 H2)).
Qed.

Lemma halving_witness :
  _calculate_confidence
    (Probe.Make "hardcoded_secrets" "Critical" "token = 'os.getenv'"
       "Tests/settings.py")
  = (_calculate_confidence
       (Probe.Make "hardcoded_secrets" "Critical" "token = 'os.getenv'"
          "settings.py") * 0.5)%float.
Proof.
  apply test_path_halves_confidence; vm_compute; reflexivity.
Defined.

(** X6.  The path changes nothing but the confidence: the report of a
    content under a path that contains [test] is the report under a path
    that does not, finding by finding and in the same order, with every
    confidence halved. *)
Theorem test_path_changes_only_confidence (self : CodeAnalyzer)
  (plain test content : string) :
  is_test_path plain = false -> is_test_path test = true ->
  analyze_file self test content
  = map halve (analyze_file self plain content).
Proof.
  intros H1 H2. unfold analyze_file, analyze_with, sort_issues.
  destruct (collect_test_path self (_detect_framework content) plain test
              content H1 H2) as [-> Hall].
  apply (sorted_map issue_lt halve plain_scored); [|exact Hall].
  intros x y. apply halve_lt.
Qed.

Lemma test_path_witness :
  analyze_file init "tests/app.py" flask_test_module
  = map halve (analyze_file init "app.py" flask_test_module).
Proof.
  apply test_path_changes_only_confidence; vm_compute; reflexivity.
Defined.

End AnalyzerMore.

(* ================================================================== *)
(** * More properties of [code_analysis_patterns.py] *)

Module PatternsMore.
Import PyStr Re Py Samples Census Patterns Report.
Local Open Scope string_scope.
Local Open Scope list_scope.
Local Open Scope nat_scope.

(** ** The checkers of regular expressions *)

Lemma map_types (make : rmatch_obj -> issue) (types : list string)
  (ms : list rmatch_obj) :
  (forall m, type_in types (make m)) -> Forall (type_in types) (map make ms).
Proof.
  intros H. apply Forall_forall. intros i Hi.
  apply in_map_iff in Hi. now destruct Hi as (m & <- & _).
Qed.

(** X7.  With the tables of [__init__] the three regular-expression
    checkers never raise; every security issue is a hardcoded secret, an SQL
    injection or a command injection and every resource issue a resource
    leak or an infinite loop.  They read five patterns only: a checker that
    agrees on those five gives the same issues, so the [shell_injection],
    [memory_leaks] and [safe_patterns] entries have no effect. *)
Theorem regex_checkers_read_five_patterns (code : string) :
  (exists security resources,
      regex_issues init code = Returns (security, resources)
      /\ Forall (type_in ["Hardcoded secrets"; "SQL Injection";
                          "Command Injection"]) security
      /\ Forall (type_in ["Resource leak"; "Infinite loop"]) resources)
  /\ (forall self,
        lookup "hardcoded_secrets" (credential_patterns self)
        = lookup "hardcoded_secrets" (credential_patterns init) ->
        lookup "sql_injection" (injection_patterns self)
        = lookup "sql_injection" (injection_patterns init) ->
        lookup "command_injection" (injection_patterns self)
        = lookup "command_injection" (injection_patterns init) ->
        lookup "file_leaks" (resource_patterns self)
        = lookup "file_leaks" (resource_patterns init) ->
        lookup "infinite_loops" (resource_patterns self)
        = lookup "infinite_loops" (resource_patterns init) ->
        regex_issues self code = regex_issues init code).
Proof.
  split.
  - eexists _, _. split; [reflexivity|]. split.
    + repeat (apply Forall_app; split); apply map_types; intros m;
        eexists; (split; [reflexivity|]); cbn; tauto.
    + apply Forall_app; split; apply map_types; intros m;
        eexists; (split; [reflexivity|]); cbn; tauto.
  - intros self H1 H2 H3 H4 H5.
    unfold regex_issues, check_credentials, check_injections, check_resources,
      getitem.
    now rewrite H1, H2, H3, H4, H5.
Qed.

Lemma trimmed_witness :
  regex_issues trimmed test_code = regex_issues init test_code.
Proof.
  apply (proj2 (regex_checkers_read_five_patterns test_code) trimmed);
    reflexivity.
Defined.

(** X8.  [analyze_code] returns exactly when [ast.parse] returns: it
    never raises on its own.  It then returns three groups, in the order
    security, resource, logic: the issues of the regular expressions and,
    as logic issues, the unguarded attribute accesses followed by the bare
    exception handlers of the tree. *)
Theorem analyze_code_returns_with_the_parser
  (ast_parse : string -> outcome ast) (code : string) :
  (forall tree,
      ast_parse code = Returns tree ->
      exists security resources,
        regex_issues init code = Returns (security, resources)
        /\ analyze_code ast_parse code
           = Returns [ ("security_issues", security);
                       ("resource_issues", resources);
                       ("logic_issues",
                        null_pointers_of tree ++ bare_excepts_of tree) ])
  /\ ((exists results, analyze_code ast_parse code = Returns results)
      <-> exists tree, ast_parse code = Returns tree).
Proof.
  split.
  - intros tree H. eexists _, _. split; [reflexivity|].
    unfold analyze_code, check_null_pointers, check_error_handling.
    change (check_credentials init code) with
      (Returns (map (credential_issue code)
                  (finditer hardcoded_secrets_pattern code))).
    cbn [bind]. unfold check_injections, check_resources, getitem.
    cbn [lookup injection_patterns resource_patterns init
         the_injection_patterns the_resource_patterns String.eqb Ascii.eqb
         Bool.eqb bind].
    rewrite H. cbn [bind]. reflexivity.
  - unfold analyze_code, check_null_pointers, check_error_handling.
    change (check_credentials init code) with
      (Returns (map (credential_issue code)
                  (finditer hardcoded_secrets_pattern code))).
    cbn [bind]. unfold check_injections, check_resources, getitem.
    cbn [lookup injection_patterns resource_patterns init
         the_injection_patterns the_resource_patterns String.eqb Ascii.eqb
         Bool.eqb bind].
    destruct (ast_parse code) as [tree|e]; cbn [bind].
    + split; eauto.
    + split; intros [x H]; discriminate.
Qed.

Lemma analyze_code_witness :
  exists security resources,
    regex_issues init secret_and_safe_call = Returns (security, resources)
    /\ analyze_code reject_indented secret_and_safe_call
       = Returns [ ("security_issues", security);
                   ("resource_issues", resources);
                   ("logic_issues",
                    null_pointers_of (Node "Module" [])
                    ++ bare_excepts_of (Node "Module" [])) ].
Proof.
  apply (proj1 (analyze_code_returns_with_the_parser reject_indented
                  secret_and_safe_call)).
  vm_compute. reflexivity.
Defined.

(** ** The structural checks *)

Section CountWalk.
(** [produce n] are the findings made at the node [n]; [count] adds their
    number up over a tree. *)
Variable produce : ast -> list issue.
Variable count : ast -> nat.
Hypothesis count_node :
  forall n, count n
            = length (produce n)
              + fold_right (fun c acc => count c + acc) 0 (child_nodes n).

Lemma sum_over_app (p q : list ast) :
  sum_over count (p ++ q) = sum_over count p + sum_over count q.
Proof.
  induction p as [|n p IH]; cbn [app sum_over fold_right] in *; [reflexivity|].
  fold (sum_over count (p ++ q)). fold (sum_over count p). lia.
Qed.

Lemma walk_queue_count :
  forall fuel q, total q <= fuel ->
    length (flat_map produce (walk_queue fuel q)) = sum_over count q.
Proof.
  induction fuel as [|fuel IH]; intros q L.
  - destruct q as [|n q]; [reflexivity|].
    cbn [total fold_right] in L.
    rewrite PatternsProps.size_children in L. lia.
  - destruct q as [|n q]; [reflexivity|].
    cbn [walk_queue flat_map sum_over fold_right total] in *.
    fold (sum_over count q). fold (total q) in L.
    rewrite PatternsProps.size_children in L.
    rewrite length_app, IH.
    + rewrite sum_over_app, (count_node n). unfold sum_over. lia.
    + rewrite PatternsProps.total_app. lia.
Qed.

Lemma walk_count (tree : ast) :
  length (flat_map produce (walk tree)) = count tree.
Proof.
  unfold walk. rewrite walk_queue_count.
  - cbn [sum_over fold_right]. lia.
  - cbn [total fold_right]. lia.
Qed.

End CountWalk.

(** X9.  The structural checks flag every node of their kind exactly once,
    wherever it is in the tree: there are as many null-pointer findings as
    attribute accesses and as many broad-exception findings as handlers
    without an exception type.  The former are High, the latter Medium, and
    neither has a proof text. *)
Theorem structural_findings_count_nodes (tree : ast) :
  length (null_pointers_of tree) = attributes tree
  /\ length (bare_excepts_of tree) = bare_handlers tree
  /\ Forall (fun i => lookup "severity" i = Some "High"
                      /\ lookup "proof" i = None) (null_pointers_of tree)
  /\ Forall (fun i => lookup "severity" i = Some "Medium"
                      /\ lookup "proof" i = None) (bare_excepts_of tree).
Proof.
  split; [|split; [|split]].
  - unfold null_pointers_of. apply walk_count.
    intros [l v a|l [e|] body|c cs]; cbn [attributes child_nodes fold_right length];
      lia.
  - unfold bare_excepts_of. apply walk_count.
    intros [l v a|l [e|] body|c cs];
      cbn [bare_handlers child_nodes fold_right length]; lia.
  - apply Forall_forall. intros i Hi. apply in_flat_map in Hi.
    destruct Hi as ([l v a|l t b|c cs] & _ & Hi); try destruct t;
      cbn [In] in Hi; try contradiction.
    destruct Hi as [<-|[]]. now split.
  - apply Forall_forall. intros i Hi. apply in_flat_map in Hi.
    destruct Hi as ([l v a|l t b|c cs] & _ & Hi); try destruct t;
      cbn [In] in Hi; try contradiction.
    destruct Hi as [<-|[]]. now split.
Qed.

(** In [a.b.c] both accesses are flagged. *)
Lemma nested_attribute_example :
  null_pointers_of nested_attribute_access
  = [null_pointer_issue 1; null_pointer_issue 1].
Proof. vm_compute. reflexivity. Qed.

(** ** The report *)

Lemma join_first (sep : string) (c : ascii) (first : string)
  (rest : list string) :
  exists tail, join sep (String c first :: rest) = String c tail.
Proof. destruct rest as [|second rest]; cbn [join append]; eauto. Qed.

Section ReportFacts.
Variable upper : string -> string.

Lemma category_entries_nil (category : string) (issues : list issue) :
  category_entries upper (category, issues) = [] <-> issues = [].
Proof.
  cbn [category_entries]. destruct issues; split; congruence.
Qed.

Lemma report_entries_nil (results : list (string * list issue)) :
  report_entries upper results = []
  <-> Forall (fun group => snd group = []) results.
Proof.
  unfold report_entries.
  induction results as [|[category issues] results IH]; cbn [flat_map].
  - split; [constructor|reflexivity].
  - split.
    + intros H. apply app_eq_nil in H. destruct H as [H1 H2].
      constructor; [now apply category_entries_nil in H1 | now apply IH].
    + intros H. inversion H as [|? ? H1 H2]; subst. cbn [snd] in H1. subst.
      cbn [category_entries app]. now apply IH.
Qed.

Lemma first_entry_is_heading (results : list (string * list issue)) :
  report_entries upper results = []
  \/ exists category rest,
       report_entries upper results = heading upper category :: rest.
Proof.
  unfold report_entries.
  induction results as [|[category issues] results IH]; cbn [flat_map];
    [now left|].
  destruct issues as [|i issues]; cbn [category_entries app]; [exact IH|].
  right. eauto.
Qed.

Lemma issue_entries_length (issues : list issue) :
  forall start,
    length (flat_map (issue_entries upper) (enumerate start issues))
    = fold_right (fun i n => 1 + length i + n) 0 issues.
Proof.
  induction issues as [|j l IH]; intros start; [reflexivity|].
  cbn [enumerate flat_map fold_right issue_entries].
  rewrite length_app, IH. cbn [length]. rewrite length_map. lia.
Qed.

(** X10.  The report is the empty text exactly when no category has an
    issue; a category without issues leaves no trace in it; and its entries
    are one heading per category that has issues, one numbered line per
    issue and one line per key of each issue. *)
Theorem report_is_empty_without_issues (results : list (string * list issue)) :
  (generate_report upper results = ""
   <-> Forall (fun group => snd group = []) results)
  /\ generate_report upper results
     = generate_report upper
         (filter (fun group => negb (length (snd group) =? 0)) results)
  /\ length (report_entries upper results)
     = fold_right
         (fun group acc =>
            match snd group with
            | [] => 0
            | _ :: _ =>
                1 + fold_right (fun i n => 1 + length i + n) 0 (snd group)
            end + acc) 0 results.
Proof.
  split; [|split].
  - unfold generate_report. rewrite <- report_entries_nil. split.
    + intros H. destruct (first_entry_is_heading results)
        as [E|(category & rest & E)]; [exact E|].
      rewrite E in H. unfold heading in H.
      destruct (join_first (String nl "") nl
                  ("=== " ++ replace_char "_" " " (upper category) ++ " ===")
                  rest) as [tail T].
      rewrite T in H. discriminate.
    + now intros ->.
  - unfold generate_report, report_entries. f_equal.
    induction results as [|[category issues] results IH]; [reflexivity|].
    cbn [flat_map filter snd]. destruct issues as [|i issues].
    + cbn [length Nat.eqb negb category_entries app]. exact IH.
    + cbn [length Nat.eqb negb flat_map]. now rewrite IH.
  - unfold report_entries.
    induction results as [|[category issues] results IH]; [reflexivity|].
    cbn [flat_map fold_right snd]. rewrite length_app, IH. f_equal.
    destruct issues as [|i issues]; [reflexivity|].
    cbn [category_entries length]. now rewrite issue_entries_length.
Qed.

End ReportFacts.

Lemma empty_report_witness : generate_report upper_ascii no_issues = "".
Proof.
  apply (proj1 (report_is_empty_without_issues upper_ascii no_issues)).
  repeat constructor.
Defined.

(** One issue: a heading, the number of the issue, a line per key. *)
Lemma report_example :
  generate_report upper_ascii
    [ ("security_issues", [[("severity", "Critical"); ("fix", "Rotate it")]]);
      ("resource_issues", []) ]
  = join (String nl "")
      [ String nl "=== SECURITY ISSUES ==="; String nl "ISSUE 1:";
        "- SEVERITY: Critical"; "- FIX: Rotate it" ].
Proof. vm_compute. reflexivity. Qed.


End PatternsMore.
